(** * plugin_registrar.cc: the binary messenger, its dispatch adaptor and the
      texture registrar of the C++ client wrapper

    A shallow embedding of
    [shell/platform/common/cpp/client_wrapper/plugin_registrar.cc].

    - Pointers ([FlutterDesktopMessengerRef], response handles, [void*] user
      data, [Texture*]) are addresses in [N]; [nullptr] is [0].
    - A [const uint8_t*] buffer is the list of bytes it points to; the
      [size_t] length travels next to it, exactly as in the source.
    - A [std::function] is [option] of its target: [None] is the empty
      function object, the one [if (!handler)] detects.
    - [std::map<std::string, BinaryMessageHandler>] is a node based container:
      an index from keys to node addresses and the nodes themselves, with the
      allocator left abstract.
    - The C API of the host is not part of the file; calls into it are recorded
      in a log, and its channel table is modelled from the specification.
    - A channel name is a [std::string]; the host is given [channel.c_str()]
      and reads a C string, so it sees the name up to its first NUL
      character.  The map of handlers is keyed by the whole name. *)

From Stdlib Require Import Strings.Byte Strings.Ascii.
From stdpp Require Import base numbers option list gmap strings relations.

Local Open Scope N_scope.

(** ** Addresses and buffers *)

Abbreviation ptr := N (only parsing).
Definition nullptr : ptr := 0.
Abbreviation buffer := (list byte) (only parsing).

(** The payloads of the examples. *)
Definition ping : buffer := ["p"; "i"; "n"; "g"]%byte.
Definition pong : buffer := ["p"; "o"; "n"; "g"]%byte.

(** [std::string::c_str()], as the C API reads what it returns: a C string
    ends at its first NUL character, so of a name the host sees the
    characters before the first NUL, and the whole name when it has none. *)
Fixpoint c_str (s : string) : string :=
  match s with
  | EmptyString => EmptyString
  | String a rest =>
      if Ascii.eqb a Ascii.zero then EmptyString else String a (c_str rest)
  end.

(** Two names the host cannot tell apart: ["a"] and ["a"], NUL, ["b"]. *)
Definition name_a : string := "a".
Definition name_a_nul_b : string :=
  String "a"%char (String Ascii.zero (String "b"%char EmptyString)).

(** ** The calls that reach the host *)

(** The only [FlutterDesktopMessageCallback] this file ever registers is the
    address of [ForwardToHandler]. *)
Inductive MessageCallback : Set := ForwardToHandler_fn.

Global Instance MessageCallback_eq_dec : EqDecision MessageCallback.
Proof. solve_decision. Defined.

Global Instance byte_eq_dec : EqDecision byte.
Proof. intros a b. destruct (Byte.byte_eq_dec a b); [left|right]; done. Defined.

Inductive HostCall : Set :=
| MessengerSend (messenger : ptr) (channel : string)
    (message : buffer) (message_size : N)
| MessengerSendResponse (messenger : ptr) (handle : ptr)
    (data : buffer) (data_length : N)
| MessengerSetCallback (messenger : ptr) (channel : string)
    (callback : option MessageCallback) (user_data : ptr).

Global Instance HostCall_eq_dec : EqDecision HostCall.
Proof. solve_decision. Defined.

Definition is_send_response (c : HostCall) : bool :=
  match c with MessengerSendResponse _ _ _ _ => true | _ => false end.

(** Number of [FlutterDesktopMessengerSendResponse] calls in a log. *)
Definition send_responses (l : list HostCall) : nat :=
  length (filter (λ c, is_send_response c = true) l).

(** What [struct FlutterDesktopMessage] carries, as far as this file reads
    it. *)
Record FlutterDesktopMessage : Set := {
  message : buffer;
  message_size : N;
  response_handle : ptr
}.

(** The text written to [std::cerr] by a reply on a consumed handle. *)
Definition duplicate_response : string :=
  "Error: Response can be set only once. Ignoring duplicate response.".

(** ** The environment running code acts on *)

Section Messenger.

Context {U : Type}.

(** [calls] is the log of calls into the C API, oldest first; [cerr] the lines
    written to [std::cerr]; [user] the state of the plugin code. *)
Record Env : Type := {
  calls : list HostCall;
  cerr : list string;
  user : U
}.

Definition log_call (c : HostCall) (e : Env) : Env :=
  {| calls := calls e ++ [c]; cerr := cerr e; user := user e |}.

Definition write_cerr (s : string) (e : Env) : Env :=
  {| calls := calls e; cerr := cerr e ++ [s]; user := user e |}.

(** Modelled from the spec: [send_response(transport, response_handle, bytes,
    length)] of the host; the function is declared in the C header, which is
    not among the sources.  The call is recorded. *)
Definition FlutterDesktopMessengerSendResponse
    (messenger handle : ptr) (data : buffer) (data_length : N) : Env → Env :=
  log_call (MessengerSendResponse messenger handle data data_length).

(** Modelled from the spec: [send(transport, channel, bytes, length)] of the
    host.  The call is recorded. *)
Definition FlutterDesktopMessengerSend
    (messenger : ptr) (channel : string) (msg : buffer) (size : N) : Env → Env :=
  log_call (MessengerSend messenger channel msg size).

(** ** The reply closure of [ForwardToHandler] *)

(** The lambda [[messenger, response_handle](...) mutable {...}]: its state is
    the pair of captured values.  A [std::function] has value semantics, a copy
    owns a copy of the captures, so a closure object is the value of its
    captures and a call returns the closure's next state. *)
Record BinaryReply : Set := {
  captured_messenger : ptr;
  captured_response_handle : ptr
}.

(** [operator()] of the lambda, lines 30 to 40. *)
Definition BinaryReply_call (r : BinaryReply) (reply : buffer) (reply_size : N)
    (e : Env) : BinaryReply * Env :=
  if decide (captured_response_handle r = nullptr) then
    (r, write_cerr duplicate_response e)
  else
    ({| captured_messenger := captured_messenger r;
        captured_response_handle := nullptr |},
     FlutterDesktopMessengerSendResponse (captured_messenger r)
       (captured_response_handle r) reply reply_size e).

(** Lines 26 to 41: the closure built for a message. *)
Definition reply_handler (messenger : ptr) (msg : FlutterDesktopMessage)
    : BinaryReply :=
  let response_handle := response_handle msg in
  {| captured_messenger := messenger;
     captured_response_handle := response_handle |}.

(** ** Handlers and the messenger object *)

(** [BinaryMessageHandler] is
    [std::function<void(const uint8_t*, size_t, BinaryReply)>].  A handler is
    plugin code: it may call the reply closure it is given, any number of
    times, keep it or copy it, and call into the host.  It acts on the
    environment; a handler that calls back into [SetMessageHandler] while it
    runs is outside this model. *)
Definition Handler : Type := buffer → N → BinaryReply → Env → Env.
Definition BinaryMessageHandler : Type := option Handler.

(** [std::map<std::string, BinaryMessageHandler>]: [index] sends a key to the
    address of its mapped value, [nodes] is the memory of the mapped values. *)
Record StdMap : Type := {
  index : gmap string ptr;
  nodes : gmap ptr BinaryMessageHandler
}.

Record BinaryMessengerImpl : Type := {
  messenger_ : ptr;
  handlers_ : StdMap
}.

(** The whole state: the messenger object, the channel table of the host and
    the environment. *)
Record World : Type := {
  impl : BinaryMessengerImpl;
  callbacks : gmap (ptr * string) (MessageCallback * ptr);
  env : Env
}.

Definition with_handlers (f : StdMap → StdMap) (w : World) : World :=
  {| impl := {| messenger_ := messenger_ (impl w);
                handlers_ := f (handlers_ (impl w)) |};
     callbacks := callbacks w;
     env := env w |}.

Definition with_env (f : Env → Env) (w : World) : World :=
  {| impl := impl w; callbacks := callbacks w; env := f (env w) |}.

(** *** The operations of [std::map] the file uses *)

(** The allocator of the map's nodes: given the addresses in use it returns
    one that is not. *)
Variable alloc : gset ptr → ptr.
Hypothesis alloc_fresh : ∀ X : gset ptr, alloc X ∉ X.

(** [m.erase(key)]: the node of [key], if any, is freed. *)
Definition map_erase (key : string) (m : StdMap) : StdMap :=
  match index m !! key with
  | Some p => {| index := delete key (index m); nodes := delete p (nodes m) |}
  | None => m
  end.

(** [m[key]]: the address of the mapped value; a missing key gets a new node
    holding a default constructed, that is empty, function. *)
Definition map_subscript (key : string) (m : StdMap) : ptr * StdMap :=
  match index m !! key with
  | Some p => (p, m)
  | None =>
      let p := alloc (dom (nodes m)) in
      (p, {| index := <[key := p]> (index m);
             nodes := <[p := None]> (nodes m) |})
  end.

(** Assignment through the reference [m[key]] returned. *)
Definition map_assign (p : ptr) (h : BinaryMessageHandler) (m : StdMap) : StdMap :=
  {| index := index m; nodes := <[p := h]> (nodes m) |}.

(** *** The host's channel table *)

(** Modelled from the spec: [set_channel_callback(transport, channel,
    adaptor_fn, context)] of the host, which retains the context pointer; a
    null adaptor unregisters the channel.  The function is declared in the C
    header, which is not among the sources. *)
Definition FlutterDesktopMessengerSetCallback (messenger : ptr)
    (channel : string) (callback : option MessageCallback) (user_data : ptr)
    (w : World) : World :=
  {| impl := impl w;
     callbacks :=
       match callback with
       | Some f => <[(messenger, channel) := (f, user_data)]> (callbacks w)
       | None => delete (messenger, channel) (callbacks w)
       end;
     env := log_call (MessengerSetCallback messenger channel callback user_data)
              (env w) |}.

(** ** The dispatch adaptor *)

(** [ForwardToHandler], lines 23 to 48.  [user_data] is dereferenced as a
    [BinaryMessageHandler*]; a pointer to no live node, or to an empty
    function, has no defined result. *)
Definition ForwardToHandler (messenger : ptr) (msg : FlutterDesktopMessage)
    (user_data : ptr) (w : World) : option World :=
  let reply_handler := reply_handler messenger msg in
  match nodes (handlers_ (impl w)) !! user_data with
  | Some (Some message_handler) =>
      Some (with_env (message_handler (message msg) (message_size msg)
                        reply_handler) w)
  | _ => None
  end.

(** ** The messenger *)

(** The constructor: [messenger_(core_messenger)], an empty map. *)
Definition BinaryMessengerImpl_new (core_messenger : ptr) : BinaryMessengerImpl :=
  {| messenger_ := core_messenger;
     handlers_ := {| index := ∅; nodes := ∅ |} |}.

(** A messenger just constructed, in a host that has no channel registered
    and has seen no call. *)
Definition initial_world (core_messenger : ptr) (u : U) : World :=
  {| impl := BinaryMessengerImpl_new core_messenger;
     callbacks := ∅;
     env := {| calls := []; cerr := []; user := u |} |}.

(** [BinaryMessengerImpl::Send], lines 83 to 88. *)
Definition Send (channel : string) (msg : buffer) (size : N) (w : World) : World :=
  with_env (FlutterDesktopMessengerSend (messenger_ (impl w)) (c_str channel)
              msg size) w.

(** Lines 99 and 100: [handlers_[channel] = std::move(handler)] and
    [&handlers_[channel]]. *)
Definition store_handler (channel : string) (handler : BinaryMessageHandler)
    (w : World) : ptr * World :=
  let '(slot, m1) := map_subscript channel (handlers_ (impl w)) in
  let m2 := map_assign slot handler m1 in
  let '(message_handler, m3) := map_subscript channel m2 in
  (message_handler, with_handlers (λ _, m3) w).

(** [BinaryMessengerImpl::SetMessageHandler], lines 90 to 104, statement by
    statement: the states the call goes through, in the order of the source.
    With an empty handler these are the state after the erase of line 93 and
    the state after the host call of line 94; otherwise the state after lines
    99 and 100 and the state after the host call of line 102.  The map is
    keyed by the whole name, the host is given [channel.c_str()]. *)
Definition SetMessageHandler_points (channel : string)
    (handler : BinaryMessageHandler) (w : World) : list World :=
  match handler with
  | None =>
      let w1 := with_handlers (map_erase channel) w in
      let w2 :=
        FlutterDesktopMessengerSetCallback (messenger_ (impl w1))
          (c_str channel) None nullptr w1 in
      [w1; w2]
  | Some _ =>
      let '(message_handler, w1) := store_handler channel handler w in
      let w2 :=
        FlutterDesktopMessengerSetCallback (messenger_ (impl w1))
          (c_str channel) (Some ForwardToHandler_fn) message_handler w1 in
      [w1; w2]
  end.

(** The call as a whole: the state it returns in. *)
Definition SetMessageHandler (channel : string) (handler : BinaryMessageHandler)
    (w : World) : World :=
  default w (last (SetMessageHandler_points channel handler w)).

(** ** Inbound messages *)

(** Modelled from the spec: the host transport hands an inbound message on a
    channel to the adaptor registered for it, with the context pointer it
    retained; with no registration the message is dropped.  The dispatching
    code of the host is not among the sources. *)
Definition deliver (messenger : ptr) (channel : string)
    (msg : FlutterDesktopMessage) (w : World) : option World :=
  match callbacks w !! (messenger, channel) with
  | Some (ForwardToHandler_fn, user_data) =>
      ForwardToHandler messenger msg user_data w
  | None => Some w
  end.



(** One thing that happens to a messenger whose registration on [channel]
    stays active: any call of its two methods except
    [SetMessageHandler(channel, nullptr)], or an inbound message. *)
Inductive step_keeping (channel : string) : World → World → Prop :=
| keep_set (c : string) (h : BinaryMessageHandler) (w : World) :
    (c = channel → is_Some h) →
    step_keeping channel w (SetMessageHandler c h w)
| keep_send (c : string) (msg : buffer) (size : N) (w : World) :
    step_keeping channel w (Send c msg size w)
| keep_deliver (c : string) (msg : FlutterDesktopMessage) (w w' : World) :
    deliver (messenger_ (impl w)) c msg w = Some w' →
    step_keeping channel w w'.

(** The same, for a registration that stays active at the host as well: in
    addition no call is made on another name with the same C string, which
    the host could not tell from [channel]. *)
Inductive step_active (channel : string) : World → World → Prop :=
| active_set (c : string) (h : BinaryMessageHandler) (w : World) :
    (c = channel → is_Some h) →
    (c ≠ channel → c_str c ≠ c_str channel) →
    step_active channel w (SetMessageHandler c h w)
| active_send (c : string) (msg : buffer) (size : N) (w : World) :
    step_active channel w (Send c msg size w)
| active_deliver (c : string) (msg : FlutterDesktopMessage) (w w' : World) :
    deliver (messenger_ (impl w)) c msg w = Some w' →
    step_active channel w w'.

(** ** State predicates *)

(** The handler stored for a channel and the address of its node. *)
Definition entry_of (w : World) (channel : string)
    : option (ptr * BinaryMessageHandler) :=
  match index (handlers_ (impl w)) !! channel with
  | Some p =>
      match nodes (handlers_ (impl w)) !! p with
      | Some h => Some (p, h)
      | None => None
      end
  | None => None
  end.

(** What the node based layout of [std::map] provides: every key has a live
    node, and no two keys share one. *)
Definition map_wf (m : StdMap) : Prop :=
  (∀ c p, index m !! c = Some p → is_Some (nodes m !! p)) ∧
  (∀ c d p, index m !! c = Some p → index m !! d = Some p → c = d).

(** The entry of [channel] is the node at [p], and that node holds a
    callable handler. *)
Definition stored_at (channel : string) (p : ptr) (w : World) : Prop :=
  index (handlers_ (impl w)) !! channel = Some p ∧
  (∃ h : Handler, nodes (handlers_ (impl w)) !! p = Some (Some h)).

(** [channel] is stored at [p] and registered with the host, under its C
    string, with [p] as context. *)
Definition registered_at (channel : string) (p : ptr) (w : World) : Prop :=
  stored_at channel p w ∧
  callbacks w !! (messenger_ (impl w), c_str channel) =
    Some (ForwardToHandler_fn, p).

(** Every context pointer the host holds is the address of a node with a
    callable handler. *)
Definition host_contexts_live (w : World) : Prop :=
  ∀ (r : ptr) (s : string) (f : MessageCallback) (q : ptr),
    callbacks w !! (r, s) = Some (f, q) →
    ∃ h : Handler, nodes (handlers_ (impl w)) !! q = Some (Some h).

(** ** Handlers the statements use *)

(** A handler that replies at once, and then a second time. *)
Definition replies_twice (b1 : buffer) (n1 : N) (b2 : buffer) (n2 : N) : Handler :=
  λ _ _ reply e,
    let '(reply1, e1) := BinaryReply_call reply b1 n1 e in
    snd (BinaryReply_call reply1 b2 n2 e1).

(** The claimed behaviour of a reply closure used twice: the first call sends
    and consumes the handle, the second only reports. *)
Definition replies_once (messenger : ptr) (msg : FlutterDesktopMessage)
    (b1 : buffer) (n1 : N) (b2 : buffer) (n2 : N) (e : Env) : Prop :=
  let r0 := reply_handler messenger msg in
  let r1 := fst (BinaryReply_call r0 b1 n1 e) in
  let e1 := snd (BinaryReply_call r0 b1 n1 e) in
  let r2 := fst (BinaryReply_call r1 b2 n2 e1) in
  let e2 := snd (BinaryReply_call r1 b2 n2 e1) in
  calls e1 = calls e ++ [MessengerSendResponse messenger (response_handle msg) b1 n1] ∧
  cerr e1 = cerr e ∧
  captured_response_handle r1 = nullptr ∧
  calls e2 = calls e1 ∧
  cerr e2 = cerr e1 ++ [duplicate_response] ∧
  r2 = r1 ∧
  user e2 = user e ∧
  send_responses (calls e2) = S (send_responses (calls e)).

(** ** Closure objects by identity *)

(** To tell a closure object from its copies, the reply closures alive are
    kept in a store, by identity.  Calling an object updates its own captures
    in place; an identity that names no object has no defined result. *)
Definition closure_call (id : nat) (reply : buffer) (reply_size : N)
    (s : gmap nat BinaryReply) (e : Env)
    : option (gmap nat BinaryReply * Env) :=
  match s !! id with
  | Some r =>
      let '(r', e') := BinaryReply_call r reply reply_size e in
      Some (<[id := r']> s, e')
  | None => None
  end.

(** Copy construction of a [std::function]: the new object owns a copy of
    the target of the source, captures included. *)
Definition closure_copy (src dst : nat) (s : gmap nat BinaryReply)
    : option (gmap nat BinaryReply) :=
  match s !! src with
  | Some r => Some (<[dst := r]> s)
  | None => None
  end.

(** The claimed behaviour of a copy made before any reply: the closure [a]
    is copied to [b]; the call of [a] consumes the handle of [a] alone; the
    call of [b] sends on the same handle; afterwards both refuse. *)
Definition copies_send_apart (messenger : ptr) (msg : FlutterDesktopMessage)
    (a b : nat) (b1 : buffer) (n1 : N) (b2 : buffer) (n2 : N)
    (b3 : buffer) (n3 : N) (s : gmap nat BinaryReply) (e : Env) : Prop :=
  ∃ (s1 s2 s3 : gmap nat BinaryReply) (e2 e3 : Env),
    closure_copy a b s = Some s1 ∧
    closure_call a b1 n1 s1 e = Some (s2, e2) ∧
    closure_call b b2 n2 s2 e2 = Some (s3, e3) ∧
    captured_response_handle <$> s2 !! a = Some nullptr ∧
    captured_response_handle <$> s2 !! b = Some (response_handle msg) ∧
    calls e2 =
      calls e ++ [MessengerSendResponse messenger (response_handle msg) b1 n1] ∧
    calls e3 =
      calls e2 ++ [MessengerSendResponse messenger (response_handle msg) b2 n2] ∧
    cerr e3 = cerr e ∧
    send_responses (calls e3) = S (S (send_responses (calls e))) ∧
    closure_call a b3 n3 s3 e3 = Some (s3, write_cerr duplicate_response e3) ∧
    closure_call b b3 n3 s3 e3 = Some (s3, write_cerr duplicate_response e3).

End Messenger.

Arguments Env : clear implicits.
Arguments Handler : clear implicits.
Arguments BinaryMessageHandler : clear implicits.
Arguments StdMap : clear implicits.
Arguments BinaryMessengerImpl : clear implicits.
Arguments World : clear implicits.

(** A handler that replies at once with one payload. *)
Definition replies_with {U : Type} (reply : buffer) (reply_size : N) : Handler U :=
  λ _ _ r e, snd (BinaryReply_call r reply reply_size e).

(** A handler that keeps the reply closure for later and returns; the plugin
    state is the list of the closures kept. *)
Definition defers : Handler (list BinaryReply) :=
  λ _ _ reply e,
    {| calls := calls e; cerr := cerr e; user := reply :: user e |}.

(** The deferred reply: the closure kept last is called, and its next state
    is put back. *)
Definition reply_later (reply : buffer) (reply_size : N)
    (e : Env (list BinaryReply)) : Env (list BinaryReply) :=
  match user e with
  | [] => e
  | r :: rest =>
      let '(r', e') := BinaryReply_call r reply reply_size e in
      {| calls := calls e'; cerr := cerr e'; user := r' :: rest |}
  end.

(** The claimed behaviour of a deferred reply: the adaptor returns with the
    closure kept and nothing sent; whenever the closure is called later, one
    send-response call with the given bytes and length is made, and no
    further call of it sends again. *)
Definition deferred_reply_sent (messenger : ptr) (msg : FlutterDesktopMessage)
    (p : ptr) (reply : buffer) (reply_size : N)
    (w : World (list BinaryReply)) : Prop :=
  ∃ w1 : World (list BinaryReply),
    ForwardToHandler messenger msg p w = Some w1 ∧
    calls (env w1) = calls (env w) ∧
    cerr (env w1) = cerr (env w) ∧
    user (env w1) = reply_handler messenger msg :: user (env w) ∧
    ∀ e : Env (list BinaryReply),
      user e = user (env w1) →
      calls (reply_later reply reply_size e) =
        calls e ++ [MessengerSendResponse messenger (response_handle msg)
                      reply reply_size] ∧
      cerr (reply_later reply reply_size e) = cerr e ∧
      send_responses (calls (reply_later reply reply_size e)) =
        S (send_responses (calls e)) ∧
      ∀ (reply' : buffer) (reply_size' : N),
        calls (reply_later reply' reply_size' (reply_later reply reply_size e)) =
        calls (reply_later reply reply_size e).

(** ** Runs of the messenger *)

Section MessengerRuns.

Context {U : Type}.
Variable alloc : gset ptr → ptr.

(** One thing that can happen to a messenger: a call of one of its two
    methods, or an inbound message from its own transport. *)
Inductive step : World U → World U → Prop :=
| step_set (c : string) (h : BinaryMessageHandler U) (w : World U) :
    step w (SetMessageHandler alloc c h w)
| step_send (c : string) (msg : buffer) (size : N) (w : World U) :
    step w (Send c msg size w)
| step_deliver (c : string) (msg : FlutterDesktopMessage) (w w' : World U) :
    deliver (messenger_ (impl w)) c msg w = Some w' →
    step w w'.

(** The map and the host's table agree: the layout is that of a node based
    map, every stored function is callable, every node belongs to a key, and
    every registration the host holds is on this messenger's transport, for
    the C string of a name of the map, with the address of that name's node
    as context. *)
Definition consistent (w : World U) : Prop :=
  map_wf (handlers_ (impl w)) ∧
  (∀ (c : string) (p : ptr),
     index (handlers_ (impl w)) !! c = Some p →
     ∃ h : Handler U, nodes (handlers_ (impl w)) !! p = Some (Some h)) ∧
  (∀ p : ptr,
     is_Some (nodes (handlers_ (impl w)) !! p) →
     ∃ c : string, index (handlers_ (impl w)) !! c = Some p) ∧
  (∀ (r : ptr) (s : string) (f : MessageCallback) (p : ptr),
     callbacks w !! (r, s) = Some (f, p) →
     r = messenger_ (impl w) ∧
     ∃ k : string, c_str k = s ∧ index (handlers_ (impl w)) !! k = Some p).

(** A reply closure called with one payload after the other, each call on
    the state the previous one left. *)
Fixpoint BinaryReply_calls (r : BinaryReply) (replies : list (buffer * N))
    (e : Env U) : BinaryReply * Env U :=
  match replies with
  | [] => (r, e)
  | (reply, reply_size) :: rest =>
      let '(r', e') := BinaryReply_call r reply reply_size e in
      BinaryReply_calls r' rest e'
  end.

End MessengerRuns.

(** ** The texture registrar *)

Local Open Scope Z_scope.

(** [int64_t]: two's complement on 64 bits. *)
Definition to_int64 (z : Z) : Z := (z + 2 ^ 63) `mod` 2 ^ 64 - 2 ^ 63.

(** The interface [Texture]: its one virtual method takes the requested size
    and returns the address of a pixel buffer the texture keeps. *)
Record Texture : Set := {
  CopyPixelBuffer : N → N → ptr
}.

(** The only [FlutterTexutreCallback] this file registers is the lambda of
    [RegisterTexture]. *)
Inductive TextureCallback : Set := RegisterTexture_callback.

(** The lambda of lines 122 to 124:
    [((Texture* )user_data)->CopyPixelBuffer(width, height)], in a memory
    [objects] of texture objects. *)
Definition texture_callback (objects : gmap ptr Texture)
    (width height : N) (user_data : ptr) : option ptr :=
  match objects !! user_data with
  | Some texture => Some (CopyPixelBuffer texture width height)
  | None => None
  end.

Record TextureRegistrarImpl : Set := {
  texture_registrar_ref_ : ptr
}.

(** The compositor side: the registrations it holds, by identifier. *)
Record TextureHost : Set := {
  registrar : ptr;
  textures : gmap Z (TextureCallback * ptr)
}.

Section Textures.

(** The identifier the host gives to a registration is the host's choice. *)
Variable host_texture_id : TextureHost → ptr → Z.

(** Modelled from the spec: [register_external_texture(registrar,
    pixel_fetch_fn, context) -> id] of the host, which keeps the callback and
    its context under an identifier of its choosing.  The function is declared
    in the C header, which is not among the sources. *)
Definition FlutterDesktopRegisterExternalTexture (texture_registrar : ptr)
    (callback : TextureCallback) (user_data : ptr) (h : TextureHost)
    : Z * TextureHost :=
  let id := to_int64 (host_texture_id h user_data) in
  (id, {| registrar := registrar h;
          textures := <[id := (callback, user_data)]> (textures h) |}).

(** Modelled from the spec: the host asks for the pixels of a registered
    identifier by calling the pixel-fetch callback with the requested size and
    the context it was given. *)
Definition pixel_fetch (objects : gmap ptr Texture) (id : Z)
    (width height : N) (h : TextureHost) : option ptr :=
  match textures h !! id with
  | Some (RegisterTexture_callback, user_data) =>
      texture_callback objects width height user_data
  | None => None
  end.

(** [TextureRegistrarImpl::RegisterTexture], lines 120 to 128. *)
Definition RegisterTexture (this : TextureRegistrarImpl) (texture : ptr)
    (h : TextureHost) : Z * TextureHost :=
  let callback := RegisterTexture_callback in
  let '(texture_id, h') :=
    FlutterDesktopRegisterExternalTexture (texture_registrar_ref_ this)
      callback texture h in
  (texture_id, h').

End Textures.

(** Modelled from the spec: [unregister_external_texture(registrar, id)] of
    the host, after which the host no longer knows the identifier.  The
    function is declared in the C header, which is not among the sources. *)
Definition FlutterDesktopUnregisterExternalTexture (texture_registrar : ptr)
    (texture_id : Z) (h : TextureHost) : TextureHost :=
  {| registrar := registrar h; textures := delete texture_id (textures h) |}.

(** [TextureRegistrarImpl::UnregisterTexture], lines 135 to 137. *)
Definition UnregisterTexture (this : TextureRegistrarImpl) (texture_id : Z)
    (h : TextureHost) : TextureHost :=
  FlutterDesktopUnregisterExternalTexture (texture_registrar_ref_ this)
    texture_id h.

Local Close Scope Z_scope.

(** ** The plugin registrar *)

(** The call [PluginRegistrar] makes into the host on its own behalf. *)
Inductive RegistrarCall : Set :=
| RegistrarEnableInputBlocking (registrar : ptr) (channel : string).

Module PluginRegistrar.
Section WithHost.

Context {U : Type}.

(** The two accessors of the registration handle, which belong to the host:
    [FlutterDesktopRegistrarGetMessenger] and
    [FlutterDesktopGetTextureRegistrar]. *)
Variable FlutterDesktopRegistrarGetMessenger : ptr → ptr.
Variable FlutterDesktopGetTextureRegistrar : ptr → ptr.

(** The members of the class.  [plugins_] is the set of the owned plugin
    objects, by address; [host_calls] is the log of the calls made on the
    registration handle, oldest first. *)
Record t : Type := {
  registrar_ : ptr;
  messenger_ : BinaryMessengerImpl U;
  textures_ : TextureRegistrarImpl;
  plugins_ : gset ptr;
  host_calls : list RegistrarCall
}.

(** The constructor, lines 146 to 152. *)
Definition new (registrar : ptr) : t :=
  let core_messenger := FlutterDesktopRegistrarGetMessenger registrar in
  let texture_registrar := FlutterDesktopGetTextureRegistrar registrar in
  {| registrar_ := registrar;
     messenger_ := BinaryMessengerImpl_new core_messenger;
     textures_ := {| texture_registrar_ref_ := texture_registrar |};
     plugins_ := ∅;
     host_calls := [] |}.

(** [PluginRegistrar::AddPlugin], lines 156 to 158. *)
Definition AddPlugin (plugin : ptr) (this : t) : t :=
  {| registrar_ := registrar_ this;
     messenger_ := messenger_ this;
     textures_ := textures_ this;
     plugins_ := {[ plugin ]} ∪ plugins_ this;
     host_calls := host_calls this |}.

(** [PluginRegistrar::EnableInputBlockingForChannel], lines 160 to 163. *)
Definition EnableInputBlockingForChannel (channel : string) (this : t) : t :=
  {| registrar_ := registrar_ this;
     messenger_ := messenger_ this;
     textures_ := textures_ this;
     plugins_ := plugins_ this;
     host_calls :=
       host_calls this ++
         [RegistrarEnableInputBlocking (registrar_ this) (c_str channel)] |}.

(** A call of one of the two methods. *)
Inductive Op : Type :=
| OpAddPlugin (plugin : ptr)
| OpEnableInputBlocking (channel : string).

Definition run_op (this : t) (op : Op) : t :=
  match op with
  | OpAddPlugin plugin => AddPlugin plugin this
  | OpEnableInputBlocking channel => EnableInputBlockingForChannel channel this
  end.

Definition added (ops : list Op) : list ptr :=
  omap (λ op, match op with OpAddPlugin plugin => Some plugin | _ => None end) ops.

Definition blocked (ops : list Op) : list string :=
  omap (λ op, match op with OpEnableInputBlocking c => Some c | _ => None end) ops.

End WithHost.

Arguments t : clear implicits.

End PluginRegistrar.

(** * Properties *)

(** The two type aliases are unfolded before map lemmas are used. *)
Ltac unalias := unfold BinaryMessageHandler, Handler in *.

(** ** C strings *)

(** A name without a NUL character reaches the host whole. *)
Lemma c_str_whole (s : string) :
  (∀ a : Ascii.ascii, a ∈ String.list_ascii_of_string s → a ≠ Ascii.zero) →
  c_str s = s.
Proof.
  induction s as [|a rest IH]; [done|]. cbn. intros Hnul.
  destruct (Ascii.eqb_spec a Ascii.zero) as [->|_].
  - by destruct (Hnul Ascii.zero); [left|].
  - rewrite IH; [done|]. intros b Hb. apply Hnul. by right.
Qed.

(** What the host sees has no NUL character and is a fixed point. *)
Lemma c_str_c_str (s : string) : c_str (c_str s) = c_str s.
Proof.
  induction s as [|a rest IH]; [done|]. cbn.
  destruct (Ascii.eqb_spec a Ascii.zero) as [->|Hne]; [done|].
  cbn. destruct (Ascii.eqb_spec a Ascii.zero); [done|]. by rewrite IH.
Qed.

Example c_str_cuts_at_nul : c_str name_a_nul_b = name_a.
Proof. reflexivity. Qed.

(** ** The reply closure *)

Section ReplyFacts.

Context {U : Type}.
Implicit Types (e : Env U) (r : BinaryReply) (w : World U).

Lemma send_responses_app (l1 l2 : list HostCall) :
  send_responses (l1 ++ l2) = (send_responses l1 + send_responses l2)%nat.
Proof. unfold send_responses. by rewrite filter_app, length_app. Qed.

Lemma BinaryReply_call_live r reply reply_size e :
  captured_response_handle r ≠ nullptr →
  BinaryReply_call r reply reply_size e =
    ({| captured_messenger := captured_messenger r;
        captured_response_handle := nullptr |},
     log_call (MessengerSendResponse (captured_messenger r)
                 (captured_response_handle r) reply reply_size) e).
Proof. intros Hlive. unfold BinaryReply_call. by rewrite decide_False. Qed.

Lemma BinaryReply_call_consumed r reply reply_size e :
  captured_response_handle r = nullptr →
  BinaryReply_call r reply reply_size e = (r, write_cerr duplicate_response e).
Proof. intros Hnull. unfold BinaryReply_call. by rewrite decide_True. Qed.

Lemma replies_once_live messenger msg b1 n1 b2 n2 e :
  response_handle msg ≠ nullptr →
  replies_once messenger msg b1 n1 b2 n2 e.
Proof.
  intros Hlive. unfold replies_once.
  rewrite (BinaryReply_call_live (reply_handler messenger msg)) by done.
  cbn [fst snd].
  rewrite BinaryReply_call_consumed by done.
  cbn [BinaryReply_call reply_handler log_call write_cerr
       FlutterDesktopMessengerSendResponse calls cerr user
       captured_messenger captured_response_handle fst snd].
  rewrite send_responses_app.
  repeat split; try done.
  change (send_responses [MessengerSendResponse messenger
            (response_handle msg) b1 n1]) with 1%nat.
  lia.
Qed.

Lemma ForwardToHandler_invokes messenger msg p w (h : Handler U) :
  nodes (handlers_ (impl w)) !! p = Some (Some h) →
  ForwardToHandler messenger msg p w =
    Some (with_env (h (message msg) (message_size msg)
                      (reply_handler messenger msg)) w).
Proof.
  intros Hp. unfold ForwardToHandler. unalias. by rewrite Hp.
Qed.

End ReplyFacts.

(** C1, as stated, fails on a message that carries no response handle: the
    closure starts out with a null handle, so already the first reply is
    refused and nothing reaches the host. *)
Lemma reply_twice_null_handle :
  ¬ replies_once (U := unit) 1
      {| message := []; message_size := 0; response_handle := nullptr |}
      pong 4 pong 4
      {| calls := []; cerr := []; user := tt |}.
Proof. unfold replies_once. cbn. intros (Hcalls & _). discriminate Hcalls. Qed.

(** C1 (amended): for every inbound message whose response handle is not
    null, two calls of the reply closure built by the dispatch adaptor make
    exactly one send-response call to the host.  The first call sends the
    given bytes and length on the message's handle and leaves the closure
    with a null handle; the second sends nothing, writes the duplicate
    response line to the error stream and returns.  The same holds end to end
    when the registered handler is the one that replies twice. *)
Theorem reply_twice_sends_once {U : Type} (messenger : ptr)
    (msg : FlutterDesktopMessage) (b1 : buffer) (n1 : N) (b2 : buffer) (n2 : N)
    (p : ptr) (w : World U) :
  response_handle msg ≠ nullptr →
  nodes (handlers_ (impl w)) !! p = Some (Some (replies_twice b1 n1 b2 n2)) →
  (∀ e : Env U, replies_once messenger msg b1 n1 b2 n2 e) ∧
  ∃ w' : World U,
    ForwardToHandler messenger msg p w = Some w' ∧
    impl w' = impl w ∧ callbacks w' = callbacks w ∧
    calls (env w') =
      calls (env w) ++
        [MessengerSendResponse messenger (response_handle msg) b1 n1] ∧
    cerr (env w') = cerr (env w) ++ [duplicate_response] ∧
    user (env w') = user (env w).
Proof.
  intros Hlive Hp. split.
  - intros e. by apply replies_once_live.
  - eexists. split; [by apply ForwardToHandler_invokes|].
    cbn. unfold replies_twice.
    rewrite (BinaryReply_call_live (reply_handler messenger msg)) by done.
    by rewrite BinaryReply_call_consumed.
Qed.

Lemma reply_twice_sends_once_witness :
  ∃ w' : World unit,
    ForwardToHandler 7 {| message := ping; message_size := 4;
                          response_handle := 42 |} 100
      {| impl := {| messenger_ := 7;
                    handlers_ :=
                      {| index := {[ "ping" := 100 ]};
                         nodes := {[ 100 :=
                           Some (replies_twice pong 4 [] 0) ]} |} |};
         callbacks := {[ (7, "ping") := (ForwardToHandler_fn, 100) ]};
         env := {| calls := []; cerr := []; user := tt |} |} = Some w' ∧
    calls (env w') = [MessengerSendResponse 7 42 pong 4] ∧
    cerr (env w') = [duplicate_response].
Proof.
  edestruct (reply_twice_sends_once (U := unit) 7
    {| message := ping; message_size := 4;
       response_handle := 42 |}
    pong 4 [] 0 100
    {| impl := {| messenger_ := 7;
                  handlers_ :=
                    {| index := {[ "ping" := 100 ]};
                       nodes := {[ 100 :=
                         Some (replies_twice pong 4 [] 0) ]} |} |};
       callbacks := {[ (7, "ping") := (ForwardToHandler_fn, 100) ]};
       env := {| calls := []; cerr := []; user := tt |} |})
    as (_ & w' & Hrun & _ & _ & Hcalls & Hcerr & _).
  - discriminate.
  - reflexivity.
  - exists w'. split; [exact Hrun|]. split; [exact Hcalls | exact Hcerr].
Defined.

(** ** Storing a handler and registering the adaptor *)

Section MessengerFacts.

Context {U : Type}.
Variable alloc : gset ptr → ptr.
Implicit Types (w : World U) (m : StdMap U) (h : Handler U)
  (c d channel : string) (p q : ptr) (msg : FlutterDesktopMessage).

Local Abbreviation slot c w := (fst (map_subscript alloc c (handlers_ (impl w)))).


(** After lines 99 and 100 the map sends the channel to its slot and the
    slot holds the handler; nothing else in the map has changed. *)
Lemma store_handler_eq c (f : BinaryMessageHandler U) w :
  store_handler alloc c f w =
    (slot c w,
     with_handlers (λ _, {| index := <[c := slot c w]> (index (handlers_ (impl w)));
                            nodes := <[slot c w := f]> (nodes (handlers_ (impl w))) |}) w).
Proof.
  unfold store_handler, map_subscript.
  destruct (index (handlers_ (impl w)) !! c) as [p|] eqn:Hc; cbn.
  - rewrite Hc. by rewrite insert_id.
  - rewrite lookup_insert_eq. unfold map_assign. cbn. unalias.
    by rewrite insert_insert_eq.
Qed.

Lemma slot_present c p w :
  index (handlers_ (impl w)) !! c = Some p → slot c w = p.
Proof. intros Hc. unfold map_subscript. by rewrite Hc. Qed.

Lemma slot_absent c w :
  index (handlers_ (impl w)) !! c = None →
  slot c w = alloc (dom (nodes (handlers_ (impl w)))).
Proof. intros Hc. unfold map_subscript. by rewrite Hc. Qed.

Lemma SetMessageHandler_points_callable c h w :
  SetMessageHandler_points alloc c (Some h) w =
    [snd (store_handler alloc c (Some h) w);
     FlutterDesktopMessengerSetCallback (messenger_ (impl w)) (c_str c)
       (Some ForwardToHandler_fn) (slot c w)
       (snd (store_handler alloc c (Some h) w))].
Proof. unfold SetMessageHandler_points. by rewrite store_handler_eq. Qed.

Lemma SetMessageHandler_points_empty c w :
  SetMessageHandler_points alloc c None w =
    [with_handlers (map_erase c) w;
     FlutterDesktopMessengerSetCallback (messenger_ (impl w)) (c_str c)
       None nullptr (with_handlers (map_erase c) w)].
Proof. done. Qed.

Lemma SetMessageHandler_callable c h w :
  SetMessageHandler alloc c (Some h) w =
    FlutterDesktopMessengerSetCallback (messenger_ (impl w)) (c_str c)
      (Some ForwardToHandler_fn) (slot c w)
      (snd (store_handler alloc c (Some h) w)).
Proof.
  unfold SetMessageHandler. by rewrite SetMessageHandler_points_callable.
Qed.

Lemma SetMessageHandler_empty c w :
  SetMessageHandler alloc c None w =
    FlutterDesktopMessengerSetCallback (messenger_ (impl w)) (c_str c)
      None nullptr (with_handlers (map_erase c) w).
Proof. done. Qed.

Lemma SetMessageHandler_messenger c (f : BinaryMessageHandler U) w :
  messenger_ (impl (SetMessageHandler alloc c f w)) = messenger_ (impl w).
Proof.
  destruct f as [h|]; [|done].
  by rewrite SetMessageHandler_callable, store_handler_eq.
Qed.

Lemma SetMessageHandler_index c h w :
  index (handlers_ (impl (SetMessageHandler alloc c (Some h) w))) =
  <[c := slot c w]> (index (handlers_ (impl w))).
Proof. by rewrite SetMessageHandler_callable, store_handler_eq. Qed.

Lemma SetMessageHandler_nodes c h w :
  nodes (handlers_ (impl (SetMessageHandler alloc c (Some h) w))) =
  <[slot c w := Some h]> (nodes (handlers_ (impl w))).
Proof. by rewrite SetMessageHandler_callable, store_handler_eq. Qed.

Lemma SetMessageHandler_callbacks c h w :
  callbacks (SetMessageHandler alloc c (Some h) w) =
  <[(messenger_ (impl w), c_str c) := (ForwardToHandler_fn, slot c w)]>
    (callbacks w).
Proof. by rewrite SetMessageHandler_callable, store_handler_eq. Qed.

Lemma SetMessageHandler_env c h w :
  env (SetMessageHandler alloc c (Some h) w) =
  log_call (MessengerSetCallback (messenger_ (impl w)) (c_str c)
              (Some ForwardToHandler_fn) (slot c w)) (env w).
Proof. by rewrite SetMessageHandler_callable, store_handler_eq. Qed.

Lemma SetMessageHandler_entry c h w :
  entry_of (SetMessageHandler alloc c (Some h) w) c = Some (slot c w, Some h).
Proof.
  unfold entry_of. rewrite SetMessageHandler_index, SetMessageHandler_nodes.
  rewrite lookup_insert_eq. unalias. by rewrite lookup_insert_eq.
Qed.

(** An inbound message changes the environment only, and only through the
    handler. *)
Lemma deliver_frame messenger c msg w w' :
  deliver messenger c msg w = Some w' →
  impl w' = impl w ∧ callbacks w' = callbacks w.
Proof.
  unfold deliver, ForwardToHandler.
  destruct (callbacks w !! (messenger, c)) as [[[] p]|]; [|naive_solver].
  destruct (nodes (handlers_ (impl w)) !! p) as [[h|]|]; naive_solver.
Qed.

Lemma deliver_registered messenger c p h msg w :
  callbacks w !! (messenger, c) = Some (ForwardToHandler_fn, p) →
  nodes (handlers_ (impl w)) !! p = Some (Some h) →
  deliver messenger c msg w =
    Some (with_env (h (message msg) (message_size msg)
                      (reply_handler messenger msg)) w).
Proof.
  intros Hcb Hp. unfold deliver. rewrite Hcb.
  by apply ForwardToHandler_invokes.
Qed.


End MessengerFacts.









(** C7, as stated, fails on a name with an embedded NUL: the host's send
    function is called for the prefix it reads, not for the name given. *)
Lemma send_on_name_with_nul :
  calls (env (Send name_a_nul_b ping 4 (initial_world 7 tt))) ≠
    calls (env (initial_world 7 tt)) ++ [MessengerSend 7 name_a_nul_b ping 4].
Proof. intros Heq. vm_compute in Heq. discriminate Heq. Qed.

(** C7 (amended): [Send] hands the channel name, as the C string
    [channel.c_str()], which is the name itself unless it has an embedded NUL
    ([c_str_whole]), the bytes and the length to the host's send function on
    the messenger's own transport reference, whatever they are and whatever is
    registered.  That one call is all it does: no field of the messenger and
    no registration changes, nothing is written to the error stream, no
    handler runs and no reply is waited for, and it returns no value. *)
Theorem send_forwards_unconditionally {U : Type} (channel : string)
    (msg : buffer) (size : N) (w : World U) :
  let w' := Send channel msg size w in
  impl w' = impl w ∧
  callbacks w' = callbacks w ∧
  calls (env w') =
    calls (env w) ++
      [MessengerSend (messenger_ (impl w)) (c_str channel) msg size] ∧
  send_responses (calls (env w')) = send_responses (calls (env w)) ∧
  cerr (env w') = cerr (env w) ∧
  user (env w') = user (env w).
Proof.
  unfold Send, with_env, FlutterDesktopMessengerSend, log_call.
  cbn [impl callbacks env calls cerr user].
  repeat split. rewrite send_responses_app.
  change (send_responses
            [MessengerSend (messenger_ (impl w)) (c_str channel) msg size])
    with 0%nat.
  lia.
Qed.

(** ** The layout of the map and the stability of addresses *)

Section Layout.

Context {U : Type}.
Variable alloc : gset ptr → ptr.
Hypothesis alloc_fresh : ∀ X : gset ptr, alloc X ∉ X.
Implicit Types (w : World U) (m : StdMap U) (h : Handler U)
  (f : BinaryMessageHandler U) (c d channel : string) (p q : ptr).

Local Abbreviation slot c w := (fst (map_subscript alloc c (handlers_ (impl w)))).

Lemma map_wf_new (core_messenger : ptr) :
  map_wf (handlers_ (BinaryMessengerImpl_new (U := U) core_messenger)).
Proof. split; intros *; cbn; by rewrite lookup_empty. Qed.

(** The slot of a key is the node it already has, and otherwise an address
    no key has. *)
Lemma slot_other c d q w :
  map_wf (handlers_ (impl w)) → d ≠ c →
  index (handlers_ (impl w)) !! d = Some q → slot c w ≠ q.
Proof.
  intros [Hlive Hinj] Hne Hd Heq.
  destruct (index (handlers_ (impl w)) !! c) as [p|] eqn:Hc.
  - rewrite (slot_present alloc c p w Hc) in Heq. subst p.
    by apply Hne, (Hinj d c q).
  - rewrite (slot_absent alloc c w Hc) in Heq.
    apply (alloc_fresh (dom (nodes (handlers_ (impl w))))).
    rewrite Heq. apply elem_of_dom. by apply (Hlive d).
Qed.

Lemma map_wf_erase c m : map_wf m → map_wf (map_erase c m).
Proof.
  intros [Hlive Hinj]. unfold map_erase.
  destruct (index m !! c) as [p|] eqn:Hc; [|done].
  split; cbn.
  - intros d q Hd. apply lookup_delete_Some in Hd as [Hne Hd].
    unalias. rewrite lookup_delete_ne; [by apply (Hlive d)|].
    intros ->. by apply Hne, (Hinj c d q).
  - intros d1 d2 q [_ H1]%lookup_delete_Some [_ H2]%lookup_delete_Some.
    by apply (Hinj d1 d2 q).
Qed.

Lemma map_wf_SetMessageHandler c f w :
  map_wf (handlers_ (impl w)) →
  map_wf (handlers_ (impl (SetMessageHandler alloc c f w))).
Proof.
  intros Hwf. destruct f as [h|].
  2: { rewrite SetMessageHandler_empty. by apply map_wf_erase. }
  pose proof Hwf as [Hlive Hinj]. split.
  - intros d q. rewrite SetMessageHandler_index, SetMessageHandler_nodes.
    unalias. intros Hd. apply lookup_insert_Some in Hd as [[-> <-]|[Hne Hd]].
    + by rewrite lookup_insert_eq.
    + rewrite lookup_insert_ne; [by apply (Hlive d)|].
      by apply slot_other with d.
  - intros d1 d2 q. rewrite SetMessageHandler_index.
    intros [[-> <-]|[Hne1 H1]]%lookup_insert_Some
           [[E Hq]|[Hne2 H2]]%lookup_insert_Some; try done.
    + by destruct (slot_other d1 d2 (slot d1 w) w).
    + subst. by destruct (slot_other d2 d1 (slot d2 w) w).
    + by apply (Hinj d1 d2 q).
Qed.

(** What a call on the name [c] leaves alone in the map: the entry of any
    other name. *)
Lemma SetMessageHandler_other c d f w :
  map_wf (handlers_ (impl w)) → d ≠ c →
  let w' := SetMessageHandler alloc c f w in
  index (handlers_ (impl w')) !! d = index (handlers_ (impl w)) !! d ∧
  (∀ q, index (handlers_ (impl w)) !! d = Some q →
        nodes (handlers_ (impl w')) !! q = nodes (handlers_ (impl w)) !! q).
Proof.
  intros Hwf Hne w'. subst w'. destruct f as [h|].
  - rewrite SetMessageHandler_index, SetMessageHandler_nodes.
    split; [by rewrite lookup_insert_ne|].
    intros q Hd. unalias. rewrite lookup_insert_ne; [done|].
    by apply slot_other with d.
  - destruct Hwf as [Hlive Hinj]. rewrite SetMessageHandler_empty.
    cbn. unfold map_erase.
    destruct (index (handlers_ (impl w)) !! c) as [p|] eqn:Hc; cbn; [|done].
    split; [by rewrite lookup_delete_ne|].
    intros q Hd. unalias. rewrite lookup_delete_ne; [done|].
    intros ->. by apply Hne, (Hinj d c q).
Qed.

(** What it leaves alone at the host: every registration but the one of the
    C string of [c]. *)
Lemma SetMessageHandler_callbacks_other c f w (r : ptr) (s : string) :
  (r, s) ≠ (messenger_ (impl w), c_str c) →
  callbacks (SetMessageHandler alloc c f w) !! (r, s) = callbacks w !! (r, s).
Proof.
  intros Hne. destruct f as [h|].
  - rewrite SetMessageHandler_callbacks. by rewrite lookup_insert_ne.
  - rewrite SetMessageHandler_empty. cbn. by rewrite lookup_delete_ne.
Qed.

Lemma SetMessageHandler_other_entry c d f w :
  map_wf (handlers_ (impl w)) → d ≠ c →
  entry_of (SetMessageHandler alloc c f w) d = entry_of w d.
Proof.
  intros Hwf Hne.
  destruct (SetMessageHandler_other c d f w Hwf Hne) as (Hidx & Hnodes).
  unfold entry_of. rewrite Hidx.
  destruct (index (handlers_ (impl w)) !! d) as [q|] eqn:Hd; [|done].
  unalias. by rewrite (Hnodes q).
Qed.

(** The two program points of the registering branch keep every context
    pointer of the host alive: the handler is in its node when the host is
    given the address. *)
Lemma registering_points_live c h w :
  host_contexts_live w →
  Forall host_contexts_live (SetMessageHandler_points alloc c (Some h) w).
Proof.
  intros Hlive. rewrite SetMessageHandler_points_callable, store_handler_eq.
  cbn [snd].
  assert (Hnodes : ∀ q : ptr,
    (∃ h' : Handler U, nodes (handlers_ (impl w)) !! q = Some (Some h')) →
    ∃ h' : Handler U,
      <[slot c w := Some h]> (nodes (handlers_ (impl w))) !! q = Some (Some h')).
  { intros q [h' Hq]. unalias.
    destruct (decide (slot c w = q)) as [->|Hne].
    - exists h. by rewrite lookup_insert_eq.
    - exists h'. by rewrite lookup_insert_ne. }
  constructor; [|constructor; [|constructor]].
  - intros r s f q Hcb. apply Hnodes. by apply (Hlive r s f q).
  - intros r s f q. cbn.
    destruct (decide ((messenger_ (impl w), c_str c) = (r, s))) as [<-|Hne].
    + rewrite lookup_insert_eq. intros [= <- <-].
      exists h. unalias. by rewrite lookup_insert_eq.
    + rewrite lookup_insert_ne by done. intros Hcb.
      apply Hnodes. by apply (Hlive r s f q).
Qed.

(** A step that does not erase the name [channel] keeps the layout of the
    map, the transport reference and the entry of [channel], address
    included. *)
Lemma step_keeping_stored channel p w w' :
  step_keeping alloc channel w w' →
  map_wf (handlers_ (impl w)) → stored_at channel p w →
  map_wf (handlers_ (impl w')) ∧ stored_at channel p w' ∧
  messenger_ (impl w') = messenger_ (impl w).
Proof.
  intros Hstep Hwf (Hidx & [h0 Hnode]).
  destruct Hstep as [c f w Hkeep|c msg size w|c msg w w' Hdel].
  - split; [by apply map_wf_SetMessageHandler|].
    split; [|by apply SetMessageHandler_messenger].
    unfold stored_at.
    destruct (decide (c = channel)) as [->|Hne].
    + destruct (Hkeep eq_refl) as [h ->].
      rewrite SetMessageHandler_index, SetMessageHandler_nodes.
      rewrite (slot_present alloc channel p w Hidx).
      unalias. rewrite !lookup_insert_eq. eauto.
    + destruct (SetMessageHandler_other c channel f w Hwf) as (Hi & Hn);
        [done|].
      cbn zeta in Hi, Hn. unalias. rewrite Hi, (Hn p Hidx). eauto.
  - split; [done|]. split; [|done]. split; [done|]. by exists h0.
  - apply deliver_frame in Hdel as [Himpl Hcbs].
    unfold stored_at. rewrite Himpl.
    split; [done|]. split; [|done]. split; [done|]. by exists h0.
Qed.

Lemma steps_keeping_stored channel p w w' :
  rtc (step_keeping alloc channel) w w' →
  map_wf (handlers_ (impl w)) → stored_at channel p w →
  map_wf (handlers_ (impl w')) ∧ stored_at channel p w'.
Proof.
  induction 1 as [w|w w1 w' Hstep _ IH]; [done|].
  intros Hwf Hst.
  destruct (step_keeping_stored channel p w w1 Hstep Hwf Hst)
    as (Hwf1 & Hst1 & _).
  by apply IH.
Qed.

Lemma step_active_keeping channel w w' :
  step_active alloc channel w w' → step_keeping alloc channel w w'.
Proof.
  intros [c f w0 Hkeep _|c msg size w0|c msg w0 w1 Hdel].
  - by apply keep_set.
  - apply keep_send.
  - by apply keep_deliver with c msg.
Qed.

(** A step that, in addition, is not a call on another name with the same C
    string keeps the registration at the host. *)
Lemma step_active_registered channel p w w' :
  step_active alloc channel w w' →
  map_wf (handlers_ (impl w)) → registered_at channel p w →
  map_wf (handlers_ (impl w')) ∧ registered_at channel p w'.
Proof.
  intros Hstep Hwf [Hst Hcb].
  destruct (step_keeping_stored channel p w w'
              (step_active_keeping channel w w' Hstep) Hwf Hst)
    as (Hwf' & Hst' & Hm).
  split; [done|]. split; [done|]. rewrite Hm.
  destruct Hstep as [c f w Hkeep Halias|c msg size w|c msg w w' Hdel].
  - destruct (decide (c = channel)) as [->|Hne].
    + destruct (Hkeep eq_refl) as [h ->]. destruct Hst as [Hidx _].
      rewrite SetMessageHandler_callbacks.
      rewrite (slot_present alloc channel p w Hidx).
      by rewrite lookup_insert_eq.
    + rewrite SetMessageHandler_callbacks_other; [done|].
      intros [= Heq]. by apply (Halias Hne).
  - done.
  - apply deliver_frame in Hdel as [_ Hcbs]. by rewrite Hcbs.
Qed.

Lemma steps_active_registered channel p w w' :
  rtc (step_active alloc channel) w w' →
  map_wf (handlers_ (impl w)) → registered_at channel p w →
  map_wf (handlers_ (impl w')) ∧ registered_at channel p w'.
Proof.
  induction 1 as [w|w w1 w' Hstep _ IH]; [done|].
  intros Hwf Hreg.
  destruct (step_active_registered channel p w w1 Hstep Hwf Hreg)
    as (Hwf1 & Hreg1).
  by apply IH.
Qed.

End Layout.

(** C2: in [SetMessageHandler] with a callable handler the call goes through
    two states.  In the first the handler is in the map, at the address [p]
    of the channel's node, and the host has not been called; in the second
    the host has been given exactly [p] as context.  Every context pointer
    the host holds is the address of a callable handler in both, if it was
    before the call.  From then on, as long as the entry of the channel is
    not erased, whatever else is done to the messenger, calls on other names,
    replacements of this channel's handler, sends and inbound messages, [p]
    stays the address of the channel's entry and a callable handler lives
    there; a replacement writes the new handler at [p].  As long as, besides,
    no call is made on another name that the host cannot tell from this one,
    the channel also stays registered with [p]. *)
Theorem stored_handler_address_is_stable {U : Type} (alloc : gset ptr → ptr)
    (alloc_fresh : ∀ X : gset ptr, alloc X ∉ X)
    (c : string) (h : Handler U) (w : World U) :
  map_wf (handlers_ (impl w)) →
  let p := fst (store_handler alloc c (Some h) w) in
  let w1 := snd (store_handler alloc c (Some h) w) in
  let w2 := SetMessageHandler alloc c (Some h) w in
  let m := messenger_ (impl w) in
  (SetMessageHandler_points alloc c (Some h) w = [w1; w2] ∧
   entry_of w1 c = Some (p, Some h) ∧
   callbacks w1 = callbacks w ∧ env w1 = env w ∧
   (host_contexts_live w → host_contexts_live w1 ∧ host_contexts_live w2)) ∧
  (calls (env w2) =
     calls (env w) ++
       [MessengerSetCallback m (c_str c) (Some ForwardToHandler_fn) p] ∧
   registered_at c p w2) ∧
  (∀ w' : World U, rtc (step_keeping alloc c) w2 w' →
     stored_at c p w' ∧
     ∀ h2 : Handler U,
       entry_of (SetMessageHandler alloc c (Some h2) w') c = Some (p, Some h2)) ∧
  (∀ w' : World U, rtc (step_active alloc c) w2 w' →
     registered_at c p w' ∧
     ∀ h2 : Handler U,
       registered_at c p (SetMessageHandler alloc c (Some h2) w')).
Proof.
  intros Hwf p w1 w2 m.
  assert (Hp : p = fst (map_subscript alloc c (handlers_ (impl w))))
    by (subst p; by rewrite store_handler_eq).
  assert (Hreg : registered_at c p w2).
  { subst w2. unfold registered_at, stored_at.
    rewrite SetMessageHandler_messenger, SetMessageHandler_index,
      SetMessageHandler_nodes, SetMessageHandler_callbacks, <- Hp.
    unalias. rewrite !lookup_insert_eq. eauto. }
  assert (Hwf2 : map_wf (handlers_ (impl w2)))
    by (by apply map_wf_SetMessageHandler).
  split; [|split; [|split]].
  - split.
    { subst w1 w2. rewrite SetMessageHandler_points_callable.
      by rewrite SetMessageHandler_callable. }
    split.
    { subst w1. rewrite store_handler_eq, <- Hp. cbn [snd].
      unfold entry_of. cbn.
      rewrite lookup_insert_eq. unalias. by rewrite lookup_insert_eq. }
    split; [subst w1; by rewrite store_handler_eq|].
    split; [subst w1; by rewrite store_handler_eq|].
    intros Hlive.
    pose proof (registering_points_live alloc c h w Hlive) as Hpts.
    rewrite SetMessageHandler_points_callable in Hpts.
    rewrite <- SetMessageHandler_callable in Hpts.
    apply Forall_cons in Hpts as [H1 Hpts].
    apply Forall_cons in Hpts as [H2 _]. done.
  - split; [|done]. subst w2. by rewrite SetMessageHandler_env, <- Hp.
  - intros w' Hsteps.
    destruct (steps_keeping_stored alloc alloc_fresh c p w2 w' Hsteps
                Hwf2 (proj1 Hreg)) as [Hwf' Hst'].
    split; [done|]. intros h2. destruct Hst' as [Hidx _].
    rewrite SetMessageHandler_entry.
    by rewrite (slot_present alloc c p w' Hidx).
  - intros w' Hsteps.
    destruct (steps_active_registered alloc alloc_fresh c p w2 w' Hsteps
                Hwf2 Hreg) as [Hwf' Hreg'].
    split; [done|]. intros h2.
    eapply step_active_registered; [done| |done..].
    by apply active_set.
Qed.

Lemma stored_handler_address_is_stable_witness :
  let h : Handler nat := λ _ _ _ e,
    {| calls := calls e; cerr := cerr e; user := S (user e) |} in
  let w := initial_world 7 0%nat in
  let p := fst (store_handler fresh "ping" (Some h) w) in
  registered_at "ping" p
    (SetMessageHandler fresh "pong" None
       (SetMessageHandler fresh "pong" (Some h)
          (SetMessageHandler fresh "ping" (Some h) w))).
Proof.
  intros h w p.
  apply (stored_handler_address_is_stable fresh is_fresh "ping" h w).
  - apply map_wf_new.
  - eapply rtc_l; [by apply (active_set fresh "ping" "pong" (Some h))|].
    eapply rtc_l; [by apply (active_set fresh "ping" "pong" None)|].
    apply rtc_refl.
Defined.

(** C9: [SetMessageHandler(c, h)], with [h] empty or not, leaves every other
    channel [d] as it was: the same entry in the index, the same handler at
    the same address.  It does not change the transport reference either.
    [Send] changes no field of the messenger. *)
Theorem set_handler_touches_one_channel {U : Type} (alloc : gset ptr → ptr)
    (alloc_fresh : ∀ X : gset ptr, alloc X ∉ X)
    (c d : string) (f : BinaryMessageHandler U) (w : World U) :
  map_wf (handlers_ (impl w)) →
  d ≠ c →
  let w' := SetMessageHandler alloc c f w in
  index (handlers_ (impl w')) !! d = index (handlers_ (impl w)) !! d ∧
  entry_of w' d = entry_of w d ∧
  messenger_ (impl w') = messenger_ (impl w) ∧
  ∀ (channel : string) (msg : buffer) (size : N),
    impl (Send channel msg size w) = impl w.
Proof.
  intros Hwf Hne w'. subst w'.
  destruct (SetMessageHandler_other alloc alloc_fresh c d f w Hwf Hne)
    as (Hidx & _).
  split; [exact Hidx|].
  split; [by apply SetMessageHandler_other_entry|].
  split; [apply SetMessageHandler_messenger|done].
Qed.

Lemma set_handler_touches_one_channel_witness :
  let h : Handler nat := λ _ _ _ e,
    {| calls := calls e; cerr := cerr e; user := S (user e) |} in
  let w := SetMessageHandler fresh "pong" (Some h) (initial_world 7 0%nat) in
  entry_of (SetMessageHandler fresh "ping" (Some h) w) "pong" =
    entry_of w "pong" ∧
  entry_of (SetMessageHandler fresh "ping" None w) "pong" = entry_of w "pong".
Proof.
  intros h w. split.
  - apply (set_handler_touches_one_channel fresh is_fresh "ping" "pong"
             (Some h) w); [|done].
    apply map_wf_SetMessageHandler; [apply is_fresh|apply map_wf_new].
  - apply (set_handler_touches_one_channel fresh is_fresh "ping" "pong"
             None w); [|done].
    apply map_wf_SetMessageHandler; [apply is_fresh|apply map_wf_new].
Defined.

(** ** Two runs from a fresh messenger *)

(** The handler of channel ["ping"] answers ["pong"]: an inbound message of
    length 4 yields one send-response call with ["pong"] and length 4, after
    the registration call. *)
Example ping_pong :
  let w := SetMessageHandler fresh "ping" (Some (replies_with pong 4))
             (initial_world 7 tt) in
  let msg := {| message := ping; message_size := 4; response_handle := 42 |} in
  calls ∘ env <$> deliver 7 "ping" msg w =
    Some [MessengerSetCallback 7 "ping" (Some ForwardToHandler_fn)
            (fresh (∅ : gset ptr));
          MessengerSendResponse 7 42 pong 4].
Proof. vm_compute. reflexivity. Qed.

(** Registered and then unregistered: the inbound message reaches nobody. *)
Example ping_unregistered :
  let w := SetMessageHandler fresh "ping" None
             (SetMessageHandler fresh "ping" (Some (replies_with pong 4))
                (initial_world 7 tt)) in
  let msg := {| message := ping; message_size := 4; response_handle := 42 |} in
  send_responses ∘ calls ∘ env <$> deliver 7 "ping" msg w = Some 0%nat.
Proof. vm_compute. reflexivity. Qed.

(** A name with an embedded NUL reaches the host cut: the send goes out on
    the prefix, and a handler set under the long name is registered, and
    served, on the prefix. *)
Example send_cuts_at_nul :
  calls (env (Send name_a_nul_b ping 4 (initial_world 7 tt))) =
    [MessengerSend 7 name_a ping 4].
Proof. reflexivity. Qed.

Example handler_registered_on_prefix :
  let w := SetMessageHandler fresh name_a_nul_b (Some (replies_with pong 4))
             (initial_world 7 tt) in
  let msg := {| message := ping; message_size := 4; response_handle := 42 |} in
  send_responses ∘ calls ∘ env <$> deliver 7 name_a msg w = Some 1%nat ∧
  deliver 7 name_a_nul_b msg w = Some w.
Proof. split; vm_compute; reflexivity. Qed.

(** ** Deferred replies and copies of the reply closure *)

Lemma reply_later_live (reply : buffer) (reply_size : N)
    (e : Env (list BinaryReply)) (r : BinaryReply) (rest : list BinaryReply) :
  user e = r :: rest →
  captured_response_handle r ≠ nullptr →
  reply_later reply reply_size e =
    {| calls := calls e ++
                  [MessengerSendResponse (captured_messenger r)
                     (captured_response_handle r) reply reply_size];
       cerr := cerr e;
       user := {| captured_messenger := captured_messenger r;
                  captured_response_handle := nullptr |} :: rest |}.
Proof.
  intros Huser Hlive. unfold reply_later. rewrite Huser.
  by rewrite BinaryReply_call_live.
Qed.

Lemma reply_later_consumed (reply : buffer) (reply_size : N)
    (l : list HostCall) (err : list string) (messenger : ptr)
    (rest : list BinaryReply) :
  calls (reply_later reply reply_size
           {| calls := l; cerr := err;
              user := {| captured_messenger := messenger;
                         captured_response_handle := nullptr |} :: rest |}) = l.
Proof. reflexivity. Qed.

(** C6, as stated, fails on a message that carries no response handle: the
    closure kept by the handler has a null handle, and calling it later sends
    nothing. *)
Lemma deferred_reply_null_handle :
  ¬ deferred_reply_sent 7
      {| message := ping; message_size := 4;
         response_handle := nullptr |}
      100 pong 4
      {| impl := {| messenger_ := 7;
                    handlers_ := {| index := {[ "ping" := 100 ]};
                                    nodes := {[ 100 := Some defers ]} |} |};
         callbacks := {[ (7, "ping") := (ForwardToHandler_fn, 100) ]};
         env := {| calls := []; cerr := []; user := [] |} |}.
Proof.
  intros (w1 & Hrun & _ & _ & Huser & Hlater).
  destruct (Hlater (env w1) eq_refl) as (Hcalls & _).
  rewrite (ForwardToHandler_invokes _ _ _ _ defers) in Hrun by reflexivity.
  injection Hrun as <-. discriminate Hcalls.
Qed.

(** C6 (amended): for a message whose response handle is not null, a handler
    may keep the reply closure and return without replying; the adaptor then
    returns with nothing sent.  Whenever the kept closure is called afterwards,
    whatever has happened to the log in between, exactly one send-response
    call is made, with the bytes and the length supplied and the handle of
    that message, and later calls of the same closure send nothing more. *)
Theorem deferred_reply_sends_once (messenger : ptr)
    (msg : FlutterDesktopMessage) (p : ptr) (reply : buffer) (reply_size : N)
    (w : World (list BinaryReply)) :
  response_handle msg ≠ nullptr →
  nodes (handlers_ (impl w)) !! p = Some (Some defers) →
  deferred_reply_sent messenger msg p reply reply_size w.
Proof.
  intros Hlive Hp. eexists. split; [by apply ForwardToHandler_invokes|].
  cbn [with_env env defers calls cerr user].
  do 3 (split; [done|]).
  intros e Huser.
  rewrite (reply_later_live _ _ e _ _ Huser) by done.
  cbn [calls cerr reply_handler captured_messenger captured_response_handle].
  rewrite send_responses_app.
  change (send_responses [MessengerSendResponse messenger
            (response_handle msg) reply reply_size]) with 1%nat.
  do 2 (split; [done|]). split; [lia|].
  intros reply' reply_size'. by rewrite reply_later_consumed.
Qed.

Lemma deferred_reply_sends_once_witness :
  deferred_reply_sent 7
    {| message := ping; message_size := 4;
       response_handle := 42 |}
    100 pong 4
    {| impl := {| messenger_ := 7;
                  handlers_ := {| index := {[ "ping" := 100 ]};
                                  nodes := {[ 100 := Some defers ]} |} |};
       callbacks := {[ (7, "ping") := (ForwardToHandler_fn, 100) ]};
       env := {| calls := []; cerr := []; user := [] |} |}.
Proof.
  apply deferred_reply_sends_once.
  - discriminate.
  - reflexivity.
Defined.

Section Copies.

Context {U : Type}.
Implicit Types (s : gmap nat BinaryReply) (e : Env U) (r : BinaryReply).

Lemma closure_call_live (id : nat) reply reply_size s e r :
  s !! id = Some r →
  captured_response_handle r ≠ nullptr →
  closure_call id reply reply_size s e =
    Some (<[id := {| captured_messenger := captured_messenger r;
                     captured_response_handle := nullptr |}]> s,
          log_call (MessengerSendResponse (captured_messenger r)
                      (captured_response_handle r) reply reply_size) e).
Proof.
  intros Hid Hlive. unfold closure_call. rewrite Hid.
  by rewrite BinaryReply_call_live.
Qed.

Lemma closure_call_consumed (id : nat) reply reply_size s e r :
  s !! id = Some r →
  captured_response_handle r = nullptr →
  closure_call id reply reply_size s e =
    Some (s, write_cerr duplicate_response e).
Proof.
  intros Hid Hnull. unfold closure_call. rewrite Hid.
  rewrite BinaryReply_call_consumed by done. by rewrite insert_id.
Qed.

End Copies.

(** C10, as stated, fails on a message that carries no response handle:
    the closure and its copy both hold a null handle, and neither of them
    can send. *)
Lemma reply_copies_null_handle :
  ¬ copies_send_apart (U := unit) 7
      {| message := ping; message_size := 4; response_handle := nullptr |}
      0 1 pong 4 pong 4 pong 4
      {[ 0%nat := reply_handler 7 {| message := ping; message_size := 4;
                                     response_handle := nullptr |} ]}
      {| calls := []; cerr := []; user := tt |}.
Proof.
  intros (s1 & s2 & s3 & e2 & e3 & Hcopy & Hcall & _ & _ & _ & Hcalls & _).
  injection Hcopy as <-.
  rewrite (closure_call_consumed 0 _ _ _ _
             (reply_handler 7 {| message := ping; message_size := 4;
                                 response_handle := nullptr |}))
    in Hcall by reflexivity.
  injection Hcall as <- <-. discriminate Hcalls.
Qed.

(** C10 (amended): the response handle is a captured value of the closure
    object.  When the reply closure [a] of a message whose response handle is
    not null is copied to [b] before any reply, a call of [a] nulls the handle
    held by [a] and leaves the one held by [b]; a call of [b] then sends
    again on the very same handle, so the host sees two send-response calls
    for one message.  Only after its own send does each object refuse. *)
Theorem reply_guard_is_per_closure {U : Type} (messenger : ptr)
    (msg : FlutterDesktopMessage) (a b : nat)
    (b1 : buffer) (n1 : N) (b2 : buffer) (n2 : N) (b3 : buffer) (n3 : N)
    (s : gmap nat BinaryReply) (e : Env U) :
  response_handle msg ≠ nullptr →
  a ≠ b →
  s !! a = Some (reply_handler messenger msg) →
  copies_send_apart messenger msg a b b1 n1 b2 n2 b3 n3 s e.
Proof.
  intros Hlive Hne Ha.
  set (r := reply_handler messenger msg) in *.
  set (r0 := {| captured_messenger := messenger;
                captured_response_handle := nullptr |}).
  exists (<[b := r]> s), (<[a := r0]> (<[b := r]> s)),
    (<[b := r0]> (<[a := r0]> (<[b := r]> s))).
  eexists _, _.
  split; [unfold closure_copy; by rewrite Ha|].
  split.
  { rewrite (closure_call_live a _ _ _ _ r); [done| |done].
    by rewrite lookup_insert_ne. }
  split.
  { rewrite (closure_call_live b _ _ _ _ r); [done| |done].
    rewrite lookup_insert_ne by done. by rewrite lookup_insert_eq. }
  split; [by rewrite lookup_insert_eq|].
  split; [rewrite lookup_insert_ne by done; by rewrite lookup_insert_eq|].
  do 3 (split; [done|]).
  split.
  { cbn [log_call calls captured_messenger captured_response_handle r
         reply_handler].
    rewrite !send_responses_app.
    change (send_responses [MessengerSendResponse messenger
              (response_handle msg) b1 n1]) with 1%nat.
    change (send_responses [MessengerSendResponse messenger
              (response_handle msg) b2 n2]) with 1%nat.
    lia. }
  split.
  - apply (closure_call_consumed a _ _ _ _ r0); [|done].
    rewrite lookup_insert_ne by done. by rewrite lookup_insert_eq.
  - apply (closure_call_consumed b _ _ _ _ r0); [|done].
    by rewrite lookup_insert_eq.
Qed.

Lemma reply_guard_is_per_closure_witness :
  let msg := {| message := ping; message_size := 4;
                response_handle := 42 |} in
  ∃ (s1 s2 s3 : gmap nat BinaryReply) (e2 e3 : Env unit),
    closure_copy 0 1 {[ 0%nat := reply_handler 7 msg ]} = Some s1 ∧
    closure_call 0 pong 4 s1
      {| calls := []; cerr := []; user := tt |} = Some (s2, e2) ∧
    closure_call 1 pong 4 s2 e2 = Some (s3, e3) ∧
    send_responses (calls e3) = 2%nat.
Proof.
  intros msg.
  destruct (reply_guard_is_per_closure (U := unit) 7 msg 0 1
              pong 4 pong 4 [] 0
              {[ 0%nat := reply_handler 7 msg ]}
              {| calls := []; cerr := []; user := tt |})
    as (s1 & s2 & s3 & e2 & e3 & H1 & H2 & H3 & _ & _ & _ & _ & _ & Hn & _).
  - discriminate.
  - discriminate.
  - reflexivity.
  - exists s1, s2, s3, e2, e3. repeat split; done.
Defined.

(** ** The texture registrar *)

Local Open Scope Z_scope.

Lemma to_int64_range (z : Z) : - 2 ^ 63 ≤ to_int64 z < 2 ^ 63.
Proof. unfold to_int64. pose proof (Z.mod_pos_bound (z + 2 ^ 63) (2 ^ 64)). lia. Qed.

(** C8, as stated, fails when the host answers a registration with a
    negative sentinel: the wrapper returns it as it is. *)
Lemma register_texture_sentinel :
  ¬ 0 ≤ fst (RegisterTexture (λ _ _, -1) {| texture_registrar_ref_ := 9 |} 500
               {| registrar := 9; textures := ∅ |}).
Proof. vm_compute. intros Hle. by apply Hle. Qed.

(** C8 (amended): [RegisterTexture(t)] makes one registration call to the
    host, with its registrar reference, the pixel-fetch callback and [t] as
    context, and returns the identifier the host answers, unchanged and
    unchecked: it is non-negative exactly when the host's is.  A pixel fetch
    of the host for that identifier reaches [t]'s [CopyPixelBuffer] with the
    requested width and height and yields the buffer it returns. *)
Theorem register_texture_forwards (host_texture_id : TextureHost → ptr → Z)
    (this : TextureRegistrarImpl) (texture : ptr) (t : Texture)
    (objects : gmap ptr Texture) (width height : N) (h : TextureHost) :
  objects !! texture = Some t →
  let id := fst (RegisterTexture host_texture_id this texture h) in
  let h' := snd (RegisterTexture host_texture_id this texture h) in
  RegisterTexture host_texture_id this texture h =
    FlutterDesktopRegisterExternalTexture host_texture_id
      (texture_registrar_ref_ this) RegisterTexture_callback texture h ∧
  id = to_int64 (host_texture_id h texture) ∧
  - 2 ^ 63 ≤ id < 2 ^ 63 ∧
  (0 ≤ id ↔ 0 ≤ to_int64 (host_texture_id h texture)) ∧
  textures h' = <[id := (RegisterTexture_callback, texture)]> (textures h) ∧
  texture_callback objects width height texture =
    Some (CopyPixelBuffer t width height) ∧
  pixel_fetch objects id width height h' =
    Some (CopyPixelBuffer t width height).
Proof.
  intros Ht id h'. subst id h'. cbn [RegisterTexture fst snd
    FlutterDesktopRegisterExternalTexture textures].
  split; [done|]. split; [done|].
  split; [apply to_int64_range|]. split; [done|]. split; [done|]. split.
  - unfold texture_callback. by rewrite Ht.
  - unfold pixel_fetch. cbn. rewrite lookup_insert_eq.
    unfold texture_callback. by rewrite Ht.
Qed.

Lemma register_texture_forwards_witness :
  let t := {| CopyPixelBuffer := λ width height, (width * height)%N |} in
  let r := RegisterTexture (λ h _, Z.of_nat (size (textures h)))
             {| texture_registrar_ref_ := 9 |} 500
             {| registrar := 9; textures := ∅ |} in
  fst r = 0 ∧
  pixel_fetch {[ 500%N := t ]} (fst r) 640 480 (snd r) = Some 307200%N.
Proof.
  intros t r.
  destruct (register_texture_forwards (λ h _, Z.of_nat (size (textures h)))
              {| texture_registrar_ref_ := 9 |} 500 t {[ 500%N := t ]} 640 480
              {| registrar := 9; textures := ∅ |})
    as (_ & Hid & _ & _ & _ & _ & Hfetch).
  - reflexivity.
  - split; [exact Hid | exact Hfetch].
Defined.

Local Close Scope Z_scope.

(** * Further properties of the code *)

(** ** The messenger and the host stay in agreement *)

Section Agreement.

Context {U : Type}.
Variable alloc : gset ptr → ptr.
Hypothesis alloc_fresh : ∀ X : gset ptr, alloc X ∉ X.
Implicit Types (w : World U) (h : Handler U) (f : BinaryMessageHandler U)
  (c d : string) (p q : ptr).

Local Abbreviation slot c w := (fst (map_subscript alloc c (handlers_ (impl w)))).

Lemma consistent_initial (core_messenger : ptr) (u : U) :
  consistent (initial_world core_messenger u).
Proof.
  split; [apply map_wf_new|]. split; [|split]; cbn.
  - intros c p. by rewrite lookup_empty.
  - intros p [h Hp]. unalias. by rewrite lookup_empty in Hp.
  - intros r s f p. by rewrite lookup_empty.
Qed.

Lemma SetMessageHandler_erased_index c w :
  index (handlers_ (impl (SetMessageHandler alloc c None w))) =
  delete c (index (handlers_ (impl w))).
Proof.
  rewrite SetMessageHandler_empty. cbn. unfold map_erase.
  destruct (index (handlers_ (impl w)) !! c) eqn:Hc; cbn; [done|].
  by rewrite delete_id.
Qed.

Lemma SetMessageHandler_erased_nodes c w :
  nodes (handlers_ (impl (SetMessageHandler alloc c None w))) =
  match index (handlers_ (impl w)) !! c with
  | Some p => delete p (nodes (handlers_ (impl w)))
  | None => nodes (handlers_ (impl w))
  end.
Proof.
  rewrite SetMessageHandler_empty. cbn. unfold map_erase.
  by destruct (index (handlers_ (impl w)) !! c) eqn:Hc.
Qed.

Lemma SetMessageHandler_erased_callbacks c w :
  callbacks (SetMessageHandler alloc c None w) =
  delete (messenger_ (impl w), c_str c) (callbacks w).
Proof. done. Qed.

Lemma consistent_SetMessageHandler c f w :
  consistent w → consistent (SetMessageHandler alloc c f w).
Proof.
  intros (Hwf & Hcall & Hleak & Hhost).
  split; [by apply map_wf_SetMessageHandler|].
  pose proof Hwf as [Hlive Hinj].
  destruct f as [h|].
  - rewrite SetMessageHandler_messenger, SetMessageHandler_index,
      SetMessageHandler_nodes, SetMessageHandler_callbacks.
    split; [|split].
    + intros d q [[-> <-]|[Hne Hd]]%lookup_insert_Some.
      * exists h. unalias. by rewrite lookup_insert_eq.
      * destruct (Hcall d q Hd) as [h' Hq]. exists h'. unalias.
        rewrite lookup_insert_ne; [done|]. by apply slot_other with d.
    + intros q. unalias.
      destruct (decide (slot c w = q)) as [<-|Hne].
      * intros _. exists c. by rewrite lookup_insert_eq.
      * rewrite lookup_insert_ne by done. intros [d Hd]%Hleak.
        exists d. rewrite lookup_insert_ne; [done|].
        intros ->. apply Hne. by apply slot_present.
    + intros r s f q.
      destruct (decide ((messenger_ (impl w), c_str c) = (r, s)))
        as [[= <- <-]|Hne].
      * rewrite lookup_insert_eq. intros [= _ <-]. split; [done|].
        exists c. by rewrite lookup_insert_eq.
      * rewrite lookup_insert_ne by done. intros Hcb.
        destruct (Hhost r s f q Hcb) as [-> (k & Hk & Hidx)].
        split; [done|]. exists k. split; [done|].
        destruct (decide (c = k)) as [->|Hck].
        -- rewrite lookup_insert_eq. f_equal. by apply slot_present.
        -- by rewrite lookup_insert_ne.
  - rewrite SetMessageHandler_messenger, SetMessageHandler_erased_index,
      SetMessageHandler_erased_nodes, SetMessageHandler_erased_callbacks.
    split; [|split].
    + intros d q [Hne Hd]%lookup_delete_Some.
      destruct (Hcall d q Hd) as [h' Hq]. exists h'.
      destruct (index (handlers_ (impl w)) !! c) as [p|] eqn:Hc; [|done].
      unalias. rewrite lookup_delete_ne; [done|].
      intros ->. by apply Hne, (Hinj c d q).
    + intros q Hq.
      destruct (index (handlers_ (impl w)) !! c) as [p|] eqn:Hc.
      * unalias. apply lookup_delete_is_Some in Hq as [Hne Hq].
        destruct (Hleak q Hq) as [d Hd]. exists d.
        rewrite lookup_delete_ne; [done|]. intros ->. congruence.
      * destruct (Hleak q Hq) as [d Hd]. exists d.
        rewrite lookup_delete_ne; [done|]. intros ->. congruence.
    + intros r s f q [Hne Hcb]%lookup_delete_Some.
      destruct (Hhost r s f q Hcb) as [-> (k & Hk & Hidx)].
      split; [done|]. exists k. split; [done|].
      rewrite lookup_delete_ne; [done|]. intros ->. by apply Hne; rewrite Hk.
Qed.

Lemma consistent_step w w' : step alloc w w' → consistent w → consistent w'.
Proof.
  intros [c f w0|c msg size w0|c msg w0 w1 Hdel] Hcons.
  - by apply consistent_SetMessageHandler.
  - done.
  - apply deliver_frame in Hdel as [Himpl Hcbs].
    unfold consistent. by rewrite Himpl, Hcbs.
Qed.

(** In a state where map and host agree, an inbound message is either
    dropped or served by the handler behind the context pointer. *)
Lemma consistent_deliver (s : string) msg w :
  consistent w →
  match callbacks w !! (messenger_ (impl w), s) with
  | None => deliver (messenger_ (impl w)) s msg w = Some w
  | Some (_, p) =>
      ∃ (k : string) (h : Handler U),
        c_str k = s ∧ entry_of w k = Some (p, Some h) ∧
        deliver (messenger_ (impl w)) s msg w =
          Some (with_env (h (message msg) (message_size msg)
                            (reply_handler (messenger_ (impl w)) msg)) w)
  end.
Proof.
  intros (_ & Hcall & _ & Hhost).
  destruct (callbacks w !! (messenger_ (impl w), s)) as [[[] p]|] eqn:Hcb.
  - destruct (Hhost _ _ _ _ Hcb) as [_ (k & Hk & Hidx)].
    destruct (Hcall k p Hidx) as [h Hp].
    exists k, h. split; [done|]. split.
    + unfold entry_of. rewrite Hidx. unalias. by rewrite Hp.
    + by apply (deliver_registered _ s p h).
  - unfold deliver. by rewrite Hcb.
Qed.

Lemma consistent_steps w0 w :
  rtc (step alloc) w0 w → consistent w0 →
  consistent w ∧ messenger_ (impl w) = messenger_ (impl w0).
Proof.
  induction 1 as [w0|w0 w1 w2 Hstep _ IH]; [done|].
  intros Hcons.
  destruct (IH (consistent_step w0 w1 Hstep Hcons)) as [Hcons2 Hm].
  split; [done|]. rewrite Hm.
  destruct Hstep as [c f w0|c msg size w0|c msg w0 w1 Hdel].
  - apply SetMessageHandler_messenger.
  - done.
  - apply deliver_frame in Hdel as [Himpl _]. by rewrite Himpl.
Qed.

End Agreement.

(** X1: whatever is done to a messenger from its construction on, calls of
    [SetMessageHandler] with callable or empty handlers, calls of [Send],
    inbound messages served by handlers that leave the messenger alone, the
    map and the host never contradict each other: no two names share a node,
    every stored handler is callable, every node belongs to a name, and every
    registration the host holds is on the messenger's own transport and has
    as context the address of the entry of a name whose C string is the
    registered channel. *)
Theorem messenger_and_host_agree {U : Type} (alloc : gset ptr → ptr)
    (alloc_fresh : ∀ X : gset ptr, alloc X ∉ X)
    (core_messenger : ptr) (u : U) (w : World U) :
  rtc (step alloc) (initial_world core_messenger u) w →
  consistent w ∧ messenger_ (impl w) = core_messenger.
Proof.
  intros Hrun.
  apply (consistent_steps alloc alloc_fresh _ _ Hrun), consistent_initial.
Qed.

Lemma messenger_and_host_agree_witness :
  consistent
    (SetMessageHandler fresh name_a_nul_b None
       (Send "ping" ping 4
          (SetMessageHandler fresh name_a (Some (replies_with pong 4))
             (initial_world 7 tt)))).
Proof.
  apply (messenger_and_host_agree fresh is_fresh 7 tt).
  eapply rtc_l; [apply (step_set fresh name_a (Some (replies_with pong 4)))|].
  eapply rtc_l; [apply (step_send fresh "ping" ping 4)|].
  eapply rtc_l; [apply (step_set fresh name_a_nul_b None)|].
  apply rtc_refl.
Defined.

(** X2: in every state a messenger can reach, with handlers that leave the
    messenger alone, an inbound message on any channel has a defined
    outcome.  If the host holds no registration for the channel, the message
    is dropped and nothing changes; if it holds one, its context pointer is
    the address of the entry of a name whose C string is that channel, and the
    adaptor runs the handler stored there once on the message.  The adaptor
    never meets a freed node or an empty function. *)
Theorem inbound_message_always_defined {U : Type} (alloc : gset ptr → ptr)
    (alloc_fresh : ∀ X : gset ptr, alloc X ∉ X)
    (core_messenger : ptr) (u : U) (w : World U)
    (s : string) (msg : FlutterDesktopMessage) :
  rtc (step alloc) (initial_world core_messenger u) w →
  match callbacks w !! (core_messenger, s) with
  | None => deliver core_messenger s msg w = Some w
  | Some (_, p) =>
      ∃ (k : string) (h : Handler U),
        c_str k = s ∧ entry_of w k = Some (p, Some h) ∧
        deliver core_messenger s msg w =
          Some (with_env (h (message msg) (message_size msg)
                            (reply_handler core_messenger msg)) w)
  end.
Proof.
  intros Hrun.
  destruct (consistent_steps alloc alloc_fresh _ _ Hrun
              (consistent_initial core_messenger u)) as [Hcons Hm].
  cbn in Hm. subst core_messenger. by apply consistent_deliver.
Qed.

Lemma inbound_message_always_defined_witness :
  let w := SetMessageHandler fresh name_a_nul_b None
             (SetMessageHandler fresh name_a (Some (replies_with pong 4))
                (initial_world 7 tt)) in
  deliver 7 name_a
    {| message := ping; message_size := 4; response_handle := 42 |} w = Some w.
Proof.
  intros w.
  apply (inbound_message_always_defined fresh is_fresh 7 tt w name_a
           {| message := ping; message_size := 4; response_handle := 42 |}).
  eapply rtc_l; [apply (step_set fresh name_a (Some (replies_with pong 4)))|].
  eapply rtc_l; [apply (step_set fresh name_a_nul_b None)|].
  apply rtc_refl.
Defined.

(** ** How calls of [SetMessageHandler] compose *)

Section Composition.

Context {U : Type}.
Variable alloc : gset ptr → ptr.
Implicit Types (w : World U) (h : Handler U) (c d : string) (p q : ptr).

Local Abbreviation slot c w := (fst (map_subscript alloc c (handlers_ (impl w)))).

Lemma impl_eq (i1 i2 : BinaryMessengerImpl U) :
  messenger_ i1 = messenger_ i2 →
  index (handlers_ i1) = index (handlers_ i2) →
  nodes (handlers_ i1) = nodes (handlers_ i2) →
  i1 = i2.
Proof.
  destruct i1 as [m1 [x1 n1]], i2 as [m2 [x2 n2]]. cbn. by intros -> -> ->.
Qed.

Lemma slot_after_set c h w :
  fst (map_subscript alloc c
         (handlers_ (impl (SetMessageHandler alloc c (Some h) w)))) = slot c w.
Proof.
  apply slot_present. rewrite SetMessageHandler_index.
  by rewrite lookup_insert_eq.
Qed.

Lemma SetMessageHandler_unknown_impl c w :
  index (handlers_ (impl w)) !! c = None →
  impl (SetMessageHandler alloc c None w) = impl w.
Proof.
  intros Hc. apply impl_eq; [done| |].
  - rewrite SetMessageHandler_erased_index. by apply delete_id.
  - by rewrite SetMessageHandler_erased_nodes, Hc.
Qed.

End Composition.

(** X3: [SetMessageHandler(c, empty)] on a name that has no handler leaves
    the messenger object exactly as it was, the erase finding nothing, and
    still tells the host to drop the channel: the call is made for the C
    string of the name with a null adaptor and a null context, a registration
    the host may hold for that channel is removed, and no other registration
    changes. *)
Theorem unregister_unknown_channel {U : Type} (alloc : gset ptr → ptr)
    (c : string) (w : World U) :
  index (handlers_ (impl w)) !! c = None →
  let w' := SetMessageHandler alloc c None w in
  let m := messenger_ (impl w) in
  impl w' = impl w ∧
  callbacks w' !! (m, c_str c) = None ∧
  (∀ k : ptr * string, k ≠ (m, c_str c) → callbacks w' !! k = callbacks w !! k) ∧
  calls (env w') =
    calls (env w) ++ [MessengerSetCallback m (c_str c) None nullptr] ∧
  cerr (env w') = cerr (env w).
Proof.
  intros Hc w' m. subst w' m. split; [|split; [|split]].
  - by apply SetMessageHandler_unknown_impl.
  - rewrite SetMessageHandler_erased_callbacks. by rewrite lookup_delete_eq.
  - intros k Hk. rewrite SetMessageHandler_erased_callbacks.
    by rewrite lookup_delete_ne.
  - done.
Qed.

Lemma unregister_unknown_channel_witness :
  let w := SetMessageHandler fresh "ping" (Some (replies_with pong 4))
             (initial_world 7 tt) in
  impl (SetMessageHandler fresh "pong" None w) = impl w.
Proof.
  intros w.
  apply (unregister_unknown_channel fresh "pong" w).
  reflexivity.
Defined.

(** X4: unregistering a channel undoes a registration made just before.
    After [SetMessageHandler(c, h)] and then [SetMessageHandler(c, empty)] the
    messenger object and the host's table are what [SetMessageHandler(c,
    empty)] alone would have left: the node of [h] is freed and no
    registration remains for the channel's C string.  If [c] had no handler
    and the host no registration for that C string to begin with, both are
    exactly as before the two calls. *)
Theorem register_then_unregister {U : Type} (alloc : gset ptr → ptr)
    (alloc_fresh : ∀ X : gset ptr, alloc X ∉ X)
    (c : string) (h : Handler U) (w : World U) :
  let w2 := SetMessageHandler alloc c None
              (SetMessageHandler alloc c (Some h) w) in
  let m := messenger_ (impl w) in
  impl w2 = impl (SetMessageHandler alloc c None w) ∧
  callbacks w2 = callbacks (SetMessageHandler alloc c None w) ∧
  entry_of w2 c = None ∧
  callbacks w2 !! (m, c_str c) = None ∧
  (index (handlers_ (impl w)) !! c = None → impl w2 = impl w) ∧
  (callbacks w !! (m, c_str c) = None → callbacks w2 = callbacks w).
Proof.
  intros w2 m.
  assert (Hidx : index (handlers_ (impl w2)) =
                 delete c (index (handlers_ (impl w)))).
  { subst w2. rewrite SetMessageHandler_erased_index, SetMessageHandler_index.
    by rewrite delete_insert_eq. }
  assert (Hnodes : nodes (handlers_ (impl w2)) =
                   nodes (handlers_ (impl (SetMessageHandler alloc c None w)))).
  { subst w2. rewrite !SetMessageHandler_erased_nodes.
    rewrite SetMessageHandler_index, SetMessageHandler_nodes, lookup_insert_eq.
    unalias. rewrite delete_insert_eq.
    destruct (index (handlers_ (impl w)) !! c) as [p|] eqn:Hc.
    - by rewrite (slot_present alloc c p w Hc).
    - rewrite (slot_absent alloc c w Hc). apply delete_id.
      apply not_elem_of_dom, alloc_fresh. }
  assert (Hcbs : callbacks w2 = delete (m, c_str c) (callbacks w)).
  { subst w2 m. rewrite SetMessageHandler_erased_callbacks,
      SetMessageHandler_messenger, SetMessageHandler_callbacks.
    by rewrite delete_insert_eq. }
  assert (Himpl : impl w2 = impl (SetMessageHandler alloc c None w)).
  { apply impl_eq; [|by rewrite Hidx, SetMessageHandler_erased_index|done].
    subst w2. by rewrite !SetMessageHandler_messenger. }
  split; [done|]. split; [done|]. split; [|split; [|split]].
  - unfold entry_of. by rewrite Hidx, lookup_delete_eq.
  - by rewrite Hcbs, lookup_delete_eq.
  - intros Hc. rewrite Himpl.
    by apply SetMessageHandler_unknown_impl.
  - intros Hcb. rewrite Hcbs. by apply delete_id.
Qed.

Lemma register_then_unregister_witness :
  let w := initial_world 7 tt in
  let w2 := SetMessageHandler fresh name_a_nul_b None
              (SetMessageHandler fresh name_a_nul_b
                 (Some (replies_with pong 4)) w) in
  impl w2 = impl w ∧ callbacks w2 = callbacks w.
Proof.
  intros w w2.
  destruct (register_then_unregister fresh is_fresh name_a_nul_b
              (replies_with pong 4) w) as (_ & _ & _ & _ & Himpl & Hcbs).
  split; [apply Himpl | apply Hcbs]; reflexivity.
Defined.

(** X5: of two registrations on one name only the last counts.
    [SetMessageHandler(c, h1)] followed by [SetMessageHandler(c, h2)] leaves
    the messenger object and the host's table exactly as
    [SetMessageHandler(c, h2)] alone does, whether or not [c] had a handler
    before; the host is called twice, both times for the C string of [c] and
    with the same context pointer. *)
Theorem last_registration_wins {U : Type} (alloc : gset ptr → ptr)
    (c : string) (h1 h2 : Handler U) (w : World U) :
  let w2 := SetMessageHandler alloc c (Some h2)
              (SetMessageHandler alloc c (Some h1) w) in
  let m := messenger_ (impl w) in
  let p := fst (map_subscript alloc c (handlers_ (impl w))) in
  impl w2 = impl (SetMessageHandler alloc c (Some h2) w) ∧
  callbacks w2 = callbacks (SetMessageHandler alloc c (Some h2) w) ∧
  calls (env w2) =
    calls (env w) ++
      [MessengerSetCallback m (c_str c) (Some ForwardToHandler_fn) p;
       MessengerSetCallback m (c_str c) (Some ForwardToHandler_fn) p].
Proof.
  intros w2 m p. subst w2 m p. split; [|split].
  - apply impl_eq.
    + by rewrite !SetMessageHandler_messenger.
    + rewrite !SetMessageHandler_index, slot_after_set.
      by rewrite insert_insert_eq.
    + rewrite !SetMessageHandler_nodes, slot_after_set. unalias.
      by rewrite insert_insert_eq.
  - rewrite !SetMessageHandler_callbacks, SetMessageHandler_messenger,
      slot_after_set.
    by rewrite insert_insert_eq.
  - rewrite !SetMessageHandler_env, SetMessageHandler_messenger,
      slot_after_set.
    cbn. by rewrite <- app_assoc.
Qed.

(** X6: handlers of names that reach the host as different C strings live in
    different nodes and do not disturb each other.  After
    [SetMessageHandler(c, hc)] and [SetMessageHandler(d, hd)] with
    [c.c_str()] and [d.c_str()] different, the two entries have different
    addresses, an inbound message on the channel of [c] is served by [hc]
    alone and one on the channel of [d] by [hd] alone. *)
Theorem channels_are_served_apart {U : Type} (alloc : gset ptr → ptr)
    (alloc_fresh : ∀ X : gset ptr, alloc X ∉ X)
    (c d : string) (hc hd : Handler U) (msg : FlutterDesktopMessage)
    (w : World U) :
  map_wf (handlers_ (impl w)) →
  c_str c ≠ c_str d →
  let w2 := SetMessageHandler alloc d (Some hd)
              (SetMessageHandler alloc c (Some hc) w) in
  let m := messenger_ (impl w) in
  (∃ pc pd : ptr,
     entry_of w2 c = Some (pc, Some hc) ∧
     entry_of w2 d = Some (pd, Some hd) ∧ pc ≠ pd) ∧
  deliver m (c_str c) msg w2 =
    Some (with_env (hc (message msg) (message_size msg)
                      (reply_handler m msg)) w2) ∧
  deliver m (c_str d) msg w2 =
    Some (with_env (hd (message msg) (message_size msg)
                      (reply_handler m msg)) w2).
Proof.
  intros Hwf Hstr w2 m.
  assert (Hne : c ≠ d) by (by intros ->).
  set (w1 := SetMessageHandler alloc c (Some hc) w) in *.
  assert (Hwf1 : map_wf (handlers_ (impl w1)))
    by (by apply map_wf_SetMessageHandler).
  assert (Hm1 : messenger_ (impl w1) = m)
    by apply SetMessageHandler_messenger.
  set (pc := fst (map_subscript alloc c (handlers_ (impl w)))).
  set (pd := fst (map_subscript alloc d (handlers_ (impl w1)))).
  assert (Hc1 : index (handlers_ (impl w1)) !! c = Some pc).
  { subst w1. rewrite SetMessageHandler_index. by rewrite lookup_insert_eq. }
  destruct (SetMessageHandler_other alloc alloc_fresh d c (Some hd) w1 Hwf1 Hne)
    as (Hidx & Hnodes).
  fold w2 in Hidx, Hnodes. cbn zeta in Hidx, Hnodes.
  assert (Hpc1 : nodes (handlers_ (impl w1)) !! pc = Some (Some hc)).
  { unfold w1. rewrite SetMessageHandler_nodes. unalias.
    by rewrite lookup_insert_eq. }
  assert (Hpc : nodes (handlers_ (impl w2)) !! pc = Some (Some hc)).
  { unalias. by rewrite (Hnodes pc Hc1). }
  assert (Hpd : nodes (handlers_ (impl w2)) !! pd = Some (Some hd)).
  { subst w2. rewrite SetMessageHandler_nodes. unalias.
    by rewrite lookup_insert_eq. }
  split; [|split].
  - exists pc, pd. split; [|split].
    + unfold entry_of. rewrite Hidx, Hc1. unalias. by rewrite Hpc.
    + subst w2. apply SetMessageHandler_entry.
    + intros Heq. symmetry in Heq. revert Heq.
      by apply (slot_other alloc alloc_fresh d c pc w1).
  - apply (deliver_registered m (c_str c) pc hc); [|done].
    subst w2. rewrite SetMessageHandler_callbacks_other.
    + subst w1. rewrite SetMessageHandler_callbacks.
      by rewrite lookup_insert_eq.
    + intros [= _ Heq]. by apply Hstr.
  - apply (deliver_registered m (c_str d) pd hd); [|done].
    subst w2. rewrite SetMessageHandler_callbacks, Hm1.
    by rewrite lookup_insert_eq.
Qed.

Lemma channels_are_served_apart_witness :
  let w2 := SetMessageHandler fresh "pong" (Some (replies_with ping 4))
              (SetMessageHandler fresh "ping" (Some (replies_with pong 4))
                 (initial_world 7 tt)) in
  let msg := {| message := []; message_size := 0; response_handle := 42 |} in
  deliver 7 "ping" msg w2 =
    Some (with_env (replies_with pong 4 [] 0 (reply_handler 7 msg)) w2).
Proof.
  intros w2 msg.
  apply (channels_are_served_apart fresh is_fresh "ping" "pong"
           (replies_with pong 4) (replies_with ping 4) msg (initial_world 7 tt)).
  - apply map_wf_new.
  - done.
Defined.

(** X14: two names with the same C string are two entries of the map and
    one channel of the host.  After [SetMessageHandler(c, hc)] and
    [SetMessageHandler(d, hd)] with [c] and [d] different and [c.c_str()]
    equal to [d.c_str()], both handlers are stored, in different nodes, but
    the host's one registration has the node of [d] as context and an inbound
    message on the channel is served by [hd] alone.  A following
    [SetMessageHandler(d, empty)] removes that registration: [hc] is still
    stored under [c], and an inbound message on the channel is dropped. *)
Theorem names_with_one_c_string_share_the_channel {U : Type}
    (alloc : gset ptr → ptr) (alloc_fresh : ∀ X : gset ptr, alloc X ∉ X)
    (c d : string) (hc hd : Handler U) (msg : FlutterDesktopMessage)
    (w : World U) :
  map_wf (handlers_ (impl w)) →
  c ≠ d →
  c_str c = c_str d →
  let w2 := SetMessageHandler alloc d (Some hd)
              (SetMessageHandler alloc c (Some hc) w) in
  let w3 := SetMessageHandler alloc d None w2 in
  let m := messenger_ (impl w) in
  (∃ pc pd : ptr,
     entry_of w2 c = Some (pc, Some hc) ∧
     entry_of w2 d = Some (pd, Some hd) ∧ pc ≠ pd ∧
     callbacks w2 !! (m, c_str c) = Some (ForwardToHandler_fn, pd) ∧
     entry_of w3 c = Some (pc, Some hc)) ∧
  deliver m (c_str c) msg w2 =
    Some (with_env (hd (message msg) (message_size msg)
                      (reply_handler m msg)) w2) ∧
  callbacks w3 !! (m, c_str c) = None ∧
  deliver m (c_str c) msg w3 = Some w3.
Proof.
  intros Hwf Hne Hstr w2 w3 m.
  set (w1 := SetMessageHandler alloc c (Some hc) w) in *.
  assert (Hwf1 : map_wf (handlers_ (impl w1)))
    by (by apply map_wf_SetMessageHandler).
  assert (Hwf2 : map_wf (handlers_ (impl w2)))
    by (by apply map_wf_SetMessageHandler).
  assert (Hm1 : messenger_ (impl w1) = m)
    by apply SetMessageHandler_messenger.
  assert (Hm2 : messenger_ (impl w2) = m).
  { subst w2. by rewrite SetMessageHandler_messenger. }
  set (pc := fst (map_subscript alloc c (handlers_ (impl w)))).
  set (pd := fst (map_subscript alloc d (handlers_ (impl w1)))).
  assert (Hentry1 : entry_of w1 c = Some (pc, Some hc))
    by apply SetMessageHandler_entry.
  assert (Hc1 : index (handlers_ (impl w1)) !! c = Some pc).
  { subst w1. rewrite SetMessageHandler_index. by rewrite lookup_insert_eq. }
  assert (Hcb2 : callbacks w2 !! (m, c_str c) = Some (ForwardToHandler_fn, pd)).
  { subst w2. rewrite SetMessageHandler_callbacks, Hm1, Hstr.
    by rewrite lookup_insert_eq. }
  assert (Hpd : nodes (handlers_ (impl w2)) !! pd = Some (Some hd)).
  { subst w2. rewrite SetMessageHandler_nodes. unalias.
    by rewrite lookup_insert_eq. }
  assert (Hcb3 : callbacks w3 !! (m, c_str c) = None).
  { subst w3. rewrite SetMessageHandler_erased_callbacks, Hm2, Hstr.
    by rewrite lookup_delete_eq. }
  split; [|split; [|split]].
  - exists pc, pd. split; [|split; [|split; [|split]]].
    + subst w2. by rewrite SetMessageHandler_other_entry.
    + subst w2. apply SetMessageHandler_entry.
    + intros Heq. symmetry in Heq. revert Heq.
      by apply (slot_other alloc alloc_fresh d c pc w1).
    + done.
    + subst w3. rewrite SetMessageHandler_other_entry by done.
      subst w2. by rewrite SetMessageHandler_other_entry.
  - by apply (deliver_registered m (c_str c) pd hd).
  - done.
  - unfold deliver. by rewrite Hcb3.
Qed.

Lemma names_with_one_c_string_share_the_channel_witness :
  let w2 := SetMessageHandler fresh name_a_nul_b (Some (replies_with ping 4))
              (SetMessageHandler fresh name_a (Some (replies_with pong 4))
                 (initial_world 7 tt)) in
  let msg := {| message := []; message_size := 0; response_handle := 42 |} in
  deliver 7 name_a msg w2 =
    Some (with_env (replies_with ping 4 [] 0 (reply_handler 7 msg)) w2).
Proof.
  intros w2 msg.
  destruct (names_with_one_c_string_share_the_channel fresh is_fresh
              name_a name_a_nul_b (replies_with pong 4) (replies_with ping 4)
              msg (initial_world 7 tt)) as (_ & Hserved & _).
  - apply map_wf_new.
  - discriminate.
  - reflexivity.
  - exact Hserved.
Defined.

(** ** Any number of replies *)

Section Replies.

Context {U : Type}.
Implicit Types (e : Env U) (r : BinaryReply) (replies : list (buffer * N)).

Lemma BinaryReply_calls_consumed r replies e :
  captured_response_handle r = nullptr →
  fst (BinaryReply_calls r replies e) = r ∧
  calls (snd (BinaryReply_calls r replies e)) = calls e ∧
  cerr (snd (BinaryReply_calls r replies e)) =
    cerr e ++ replicate (length replies) duplicate_response ∧
  user (snd (BinaryReply_calls r replies e)) = user e.
Proof.
  intros Hnull. revert e.
  induction replies as [|[reply reply_size] rest IH]; intros e; cbn.
  - by rewrite app_nil_r.
  - rewrite BinaryReply_call_consumed by done.
    destruct (IH (write_cerr duplicate_response e)) as (Hr & Hc & Herr & Hu).
    rewrite Hr, Hc, Herr, Hu. cbn. by rewrite <- app_assoc.
Qed.

End Replies.

(** X7: however often a reply closure is called, only its first call gets
    through.  For a closure with a non-null handle and any list of further
    replies, the host sees one send-response call, carrying the first payload
    and the original handle; each of the other calls writes the duplicate
    response line, and the closure ends with a null handle. *)
Theorem only_first_reply_is_sent {U : Type} (r : BinaryReply)
    (reply : buffer) (reply_size : N) (rest : list (buffer * N)) (e : Env U) :
  captured_response_handle r ≠ nullptr →
  let result := BinaryReply_calls r ((reply, reply_size) :: rest) e in
  calls (snd result) =
    calls e ++ [MessengerSendResponse (captured_messenger r)
                  (captured_response_handle r) reply reply_size] ∧
  send_responses (calls (snd result)) = S (send_responses (calls e)) ∧
  cerr (snd result) = cerr e ++ replicate (length rest) duplicate_response ∧
  captured_response_handle (fst result) = nullptr ∧
  user (snd result) = user e.
Proof.
  intros Hlive result. subst result. cbn [BinaryReply_calls].
  rewrite BinaryReply_call_live by done.
  edestruct (BinaryReply_calls_consumed (U := U)) as (Hr & Hc & Herr & Hu);
    [|rewrite Hr, Hc, Herr, Hu]; [done|].
  cbn [log_call calls cerr user captured_response_handle].
  rewrite send_responses_app.
  change (send_responses [MessengerSendResponse (captured_messenger r)
            (captured_response_handle r) reply reply_size]) with 1%nat.
  repeat split. lia.
Qed.

Lemma only_first_reply_is_sent_witness :
  calls (snd (BinaryReply_calls
                (reply_handler 7 {| message := ping; message_size := 4;
                                    response_handle := 42 |})
                [(pong, 4); (ping, 4); (pong, 4)]
                {| calls := []; cerr := []; user := tt |})) =
    [MessengerSendResponse 7 42 pong 4].
Proof.
  apply (only_first_reply_is_sent (U := unit)
           (reply_handler 7 {| message := ping; message_size := 4;
                               response_handle := 42 |})
           pong 4 [(ping, 4); (pong, 4)]).
  discriminate.
Defined.

(** X8: a message that carries no response handle can not be answered.
    Every call of its reply closure, the first included, sends nothing, writes
    the duplicate response line to the error stream and leaves the closure as
    it was. *)
Theorem null_handle_is_never_answered {U : Type} (messenger : ptr)
    (msg : FlutterDesktopMessage) (replies : list (buffer * N)) (e : Env U) :
  response_handle msg = nullptr →
  let result := BinaryReply_calls (reply_handler messenger msg) replies e in
  fst result = reply_handler messenger msg ∧
  calls (snd result) = calls e ∧
  cerr (snd result) =
    cerr e ++ replicate (length replies) duplicate_response ∧
  user (snd result) = user e.
Proof. intros Hnull. by apply BinaryReply_calls_consumed. Qed.

Lemma null_handle_is_never_answered_witness :
  cerr (snd (BinaryReply_calls
               (reply_handler 7 {| message := ping; message_size := 4;
                                   response_handle := nullptr |})
               [(pong, 4); (pong, 4)]
               {| calls := []; cerr := []; user := tt |})) =
    [duplicate_response; duplicate_response].
Proof.
  apply (null_handle_is_never_answered (U := unit) 7
           {| message := ping; message_size := 4; response_handle := nullptr |}
           [(pong, 4); (pong, 4)] {| calls := []; cerr := []; user := tt |}).
  reflexivity.
Defined.

(** ** Registering and unregistering textures *)

Local Open Scope Z_scope.

Lemma TextureHost_eq (h1 h2 : TextureHost) :
  registrar h1 = registrar h2 → textures h1 = textures h2 → h1 = h2.
Proof. destruct h1, h2. cbn. by intros -> ->. Qed.

Lemma RegisterTexture_textures (host_texture_id : TextureHost → ptr → Z)
    (this : TextureRegistrarImpl) (texture : ptr) (h : TextureHost) :
  textures (snd (RegisterTexture host_texture_id this texture h)) =
  <[fst (RegisterTexture host_texture_id this texture h) :=
      (RegisterTexture_callback, texture)]> (textures h).
Proof. done. Qed.

(** X9: unregistering the identifier [RegisterTexture] returned cuts the
    texture off: a pixel fetch for that identifier no longer reaches any
    texture object, the registrations under other identifiers are the ones
    held before, and if the identifier was not in use before the
    registration, the host is back in the state it had. *)
Theorem unregistered_texture_is_not_fetched
    (host_texture_id : TextureHost → ptr → Z) (this : TextureRegistrarImpl)
    (texture : ptr) (objects : gmap ptr Texture) (width height : N)
    (h : TextureHost) :
  let r := RegisterTexture host_texture_id this texture h in
  let h2 := UnregisterTexture this (fst r) (snd r) in
  pixel_fetch objects (fst r) width height h2 = None ∧
  (∀ j : Z, j ≠ fst r → textures h2 !! j = textures h !! j) ∧
  (textures h !! fst r = None → h2 = h).
Proof.
  intros r h2.
  assert (Ht : textures h2 = delete (fst r) (textures h)).
  { subst h2 r. unfold UnregisterTexture, FlutterDesktopUnregisterExternalTexture.
    cbn [textures]. rewrite RegisterTexture_textures.
    by rewrite delete_insert_eq. }
  split; [|split].
  - unfold pixel_fetch. by rewrite Ht, lookup_delete_eq.
  - intros j Hj. by rewrite Ht, lookup_delete_ne.
  - intros Hfree. apply TextureHost_eq; [done|].
    rewrite Ht. by apply delete_id.
Qed.

Lemma unregistered_texture_is_not_fetched_witness :
  let policy : TextureHost → ptr → Z := λ h _, Z.of_nat (size (textures h)) in
  let this := {| texture_registrar_ref_ := 9 |} in
  let h := {| registrar := 9; textures := ∅ |} in
  let r := RegisterTexture policy this 500 h in
  UnregisterTexture this (fst r) (snd r) = h.
Proof.
  intros policy this h r.
  apply (unregistered_texture_is_not_fetched policy this 500 ∅ 0 0 h).
  reflexivity.
Defined.

(** X10: the texture object travels as the context of its own registration.
    When two textures are registered and the host gives them different
    identifiers, a pixel fetch for either identifier reaches the
    [CopyPixelBuffer] of the texture registered under it, with the requested
    size, also though both registrations share the one callback. *)
Theorem textures_are_fetched_apart
    (host_texture_id : TextureHost → ptr → Z) (this : TextureRegistrarImpl)
    (texture1 texture2 : ptr) (t1 t2 : Texture) (objects : gmap ptr Texture)
    (width height : N) (h : TextureHost) :
  objects !! texture1 = Some t1 →
  objects !! texture2 = Some t2 →
  let r1 := RegisterTexture host_texture_id this texture1 h in
  let r2 := RegisterTexture host_texture_id this texture2 (snd r1) in
  fst r1 ≠ fst r2 →
  pixel_fetch objects (fst r1) width height (snd r2) =
    Some (CopyPixelBuffer t1 width height) ∧
  pixel_fetch objects (fst r2) width height (snd r2) =
    Some (CopyPixelBuffer t2 width height).
Proof.
  intros Ht1 Ht2 r1 r2 Hne. unfold pixel_fetch. subst r2.
  rewrite RegisterTexture_textures. split.
  - rewrite lookup_insert_ne by done. subst r1.
    rewrite RegisterTexture_textures, lookup_insert_eq.
    unfold texture_callback. by rewrite Ht1.
  - rewrite lookup_insert_eq. unfold texture_callback. by rewrite Ht2.
Qed.

Lemma textures_are_fetched_apart_witness :
  let policy : TextureHost → ptr → Z := λ h _, Z.of_nat (size (textures h)) in
  let this := {| texture_registrar_ref_ := 9 |} in
  let t1 := {| CopyPixelBuffer := λ width height, (width * height)%N |} in
  let t2 := {| CopyPixelBuffer := λ width height, (width + height)%N |} in
  let objects : gmap ptr Texture := {[ 500%N := t1; 600%N := t2 ]} in
  let r1 := RegisterTexture policy this 500 {| registrar := 9; textures := ∅ |} in
  let r2 := RegisterTexture policy this 600 (snd r1) in
  pixel_fetch objects (fst r1) 640 480 (snd r2) = Some 307200%N ∧
  pixel_fetch objects (fst r2) 640 480 (snd r2) = Some 1120%N.
Proof.
  intros policy this t1 t2 objects r1 r2.
  apply (textures_are_fetched_apart policy this 500 600 t1 t2 objects 640 480
           {| registrar := 9; textures := ∅ |}).
  - reflexivity.
  - reflexivity.
  - vm_compute. discriminate.
Defined.

Local Close Scope Z_scope.

(** ** The plugin registrar *)

Section RegistrarFacts.

Context {U : Type}.
Implicit Types (this : PluginRegistrar.t U) (ops : list PluginRegistrar.Op).

Lemma run_ops_from this ops :
  let this' := foldl PluginRegistrar.run_op this ops in
  PluginRegistrar.registrar_ this' = PluginRegistrar.registrar_ this ∧
  PluginRegistrar.messenger_ this' = PluginRegistrar.messenger_ this ∧
  PluginRegistrar.textures_ this' = PluginRegistrar.textures_ this ∧
  PluginRegistrar.plugins_ this' =
    list_to_set (PluginRegistrar.added ops) ∪ PluginRegistrar.plugins_ this ∧
  PluginRegistrar.host_calls this' =
    PluginRegistrar.host_calls this ++
      ((λ channel, RegistrarEnableInputBlocking
                     (PluginRegistrar.registrar_ this) (c_str channel)) <$>
         PluginRegistrar.blocked ops).
Proof.
  revert this. induction ops as [|op ops IH]; intros this; cbn.
  - split; [done|]. split; [done|]. split; [done|].
    split; [by rewrite (left_id_L ∅ (∪))|by rewrite app_nil_r].
  - destruct (IH (PluginRegistrar.run_op this op)) as (Hr & Hm & Ht & Hp & Hc).
    cbn zeta in Hr, Hm, Ht, Hp, Hc. rewrite Hr, Hm, Ht, Hp, Hc.
    destruct op as [plugin|channel]; cbn.
    + repeat split.
      by rewrite (assoc_L (∪)), (comm_L (∪) _ {[plugin]}).
    + repeat split. by rewrite <- app_assoc.
Qed.

End RegistrarFacts.

(** X11: a plugin registrar keeps what it was built with and what it was
    given.  After any sequence of [AddPlugin] and
    [EnableInputBlockingForChannel] calls on a registrar built for a
    registration handle, its messenger still is the empty messenger on the
    transport of that handle, its texture registrar still wraps the texture
    registrar of that handle, the plugins it owns are exactly the ones added,
    none dropped, and the host was asked to block input once per call, in
    order, each time on that handle and for the C string of the name
    given. *)
Theorem registrar_keeps_plugins_and_wiring {U : Type}
    (FlutterDesktopRegistrarGetMessenger FlutterDesktopGetTextureRegistrar
       : ptr → ptr)
    (registrar : ptr) (ops : list PluginRegistrar.Op) :
  let this : PluginRegistrar.t U :=
    foldl PluginRegistrar.run_op
      (PluginRegistrar.new FlutterDesktopRegistrarGetMessenger
         FlutterDesktopGetTextureRegistrar registrar) ops in
  PluginRegistrar.registrar_ this = registrar ∧
  PluginRegistrar.messenger_ this =
    BinaryMessengerImpl_new (FlutterDesktopRegistrarGetMessenger registrar) ∧
  texture_registrar_ref_ (PluginRegistrar.textures_ this) =
    FlutterDesktopGetTextureRegistrar registrar ∧
  (∀ plugin : ptr,
     plugin ∈ PluginRegistrar.plugins_ this ↔
     plugin ∈ PluginRegistrar.added ops) ∧
  PluginRegistrar.host_calls this =
    (λ channel, RegistrarEnableInputBlocking registrar (c_str channel)) <$>
      PluginRegistrar.blocked ops.
Proof.
  intros this.
  destruct (run_ops_from
              (PluginRegistrar.new (U := U) FlutterDesktopRegistrarGetMessenger
                 FlutterDesktopGetTextureRegistrar registrar) ops)
    as (Hr & Hm & Ht & Hp & Hc).
  fold this in Hr, Hm, Ht, Hp, Hc. cbn zeta in Hr, Hm, Ht, Hp, Hc.
  rewrite Hr, Hm, Ht, Hp, Hc. cbn.
  do 3 (split; [done|]). split; [|done].
  intros plugin. rewrite (right_id_L ∅ (∪)). apply elem_of_list_to_set.
Qed.

(** X12: the messenger of a new plugin registrar speaks to the transport of
    the registration handle.  A [Send] through it calls the host on
    [FlutterDesktopRegistrarGetMessenger(registrar)]; a handler set through
    it is registered on that transport, for the C string of the name and with
    the first node of the map as context; and an inbound message of that
    transport on that channel is served by that handler, once, with a reply
    closure on that same transport. *)
Theorem registrar_messenger_is_wired {U : Type}
    (FlutterDesktopRegistrarGetMessenger FlutterDesktopGetTextureRegistrar
       : ptr → ptr)
    (alloc : gset ptr → ptr) (registrar : ptr) (c : string) (h : Handler U)
    (out : buffer) (out_size : N) (msg : FlutterDesktopMessage) (e : Env U) :
  let this := PluginRegistrar.new (U := U) FlutterDesktopRegistrarGetMessenger
                FlutterDesktopGetTextureRegistrar registrar in
  let core := FlutterDesktopRegistrarGetMessenger registrar in
  let w := {| impl := PluginRegistrar.messenger_ this;
              callbacks := ∅; env := e |} in
  let w1 := SetMessageHandler alloc c (Some h) w in
  calls (env (Send c out out_size w)) =
    calls e ++ [MessengerSend core (c_str c) out out_size] ∧
  calls (env w1) =
    calls e ++ [MessengerSetCallback core (c_str c) (Some ForwardToHandler_fn)
                  (alloc ∅)] ∧
  entry_of w1 c = Some (alloc ∅, Some h) ∧
  deliver core (c_str c) msg w1 =
    Some (with_env (h (message msg) (message_size msg)
                      (reply_handler core msg)) w1).
Proof.
  intros this core w w1.
  assert (Hslot : fst (map_subscript alloc c (handlers_ (impl w))) = alloc ∅).
  { rewrite slot_absent by done. cbn. unalias. by rewrite dom_empty_L. }
  split; [done|]. split; [|split].
  - subst w1. by rewrite SetMessageHandler_env, Hslot.
  - subst w1. by rewrite SetMessageHandler_entry, Hslot.
  - apply (deliver_registered core (c_str c) (alloc ∅) h).
    + subst w1. rewrite SetMessageHandler_callbacks, Hslot.
      by rewrite lookup_insert_eq.
    + subst w1. rewrite SetMessageHandler_nodes, Hslot. unalias.
      by rewrite lookup_insert_eq.
Qed.

(** ** The order of the two steps of unregistering *)

(** X13: the unregistering branch erases first and tells the host second.
    For a channel that is stored at [p] and registered with [p], the first of
    the two states the call goes through, after the erase of line 93 and
    before the host call of line 94, has the node at [p] freed while the host
    still holds [p] as the channel's context: not every context pointer of
    the host is live there, and the adaptor has no handler to run for a
    message that would arrive at that point.  The second state, after the host
    call, has no registration for the channel. *)
Theorem unregistering_erases_before_telling_the_host {U : Type}
    (alloc : gset ptr → ptr) (c : string) (p : ptr)
    (msg : FlutterDesktopMessage) (w : World U) :
  registered_at c p w →
  let m := messenger_ (impl w) in
  ∃ w1 w2 : World U,
    SetMessageHandler_points alloc c None w = [w1; w2] ∧
    env w1 = env w ∧
    callbacks w1 !! (m, c_str c) = Some (ForwardToHandler_fn, p) ∧
    nodes (handlers_ (impl w1)) !! p = None ∧
    ¬ host_contexts_live w1 ∧
    deliver m (c_str c) msg w1 = None ∧
    callbacks w2 !! (m, c_str c) = None ∧
    deliver m (c_str c) msg w2 = Some w2.
Proof.
  intros ((Hidx & _) & Hcb) m.
  eexists _, _. split; [apply SetMessageHandler_points_empty|].
  assert (Hp : nodes (handlers_ (impl (with_handlers (map_erase c) w))) !! p
               = None).
  { cbn. unfold map_erase. rewrite Hidx. cbn. unalias.
    by rewrite lookup_delete_eq. }
  split; [done|]. split; [done|]. split; [done|]. split; [|split; [|split]].
  - intros Hlive.
    destruct (Hlive m (c_str c) ForwardToHandler_fn p Hcb) as [h Hh].
    unalias. by rewrite Hp in Hh.
  - unfold deliver. cbn [callbacks with_handlers]. fold m in Hcb.
    rewrite Hcb. unfold ForwardToHandler. unalias. by rewrite Hp.
  - cbn. by rewrite lookup_delete_eq.
  - unfold deliver. cbn. by rewrite lookup_delete_eq.
Qed.

Lemma unregistering_erases_before_telling_the_host_witness :
  let w := {| impl := {| messenger_ := 7;
                         handlers_ :=
                           {| index := {[ "ping" := 100 ]};
                              nodes := {[ 100 := Some (replies_with pong 4) ]} |} |};
              callbacks := {[ (7, "ping") := (ForwardToHandler_fn, 100) ]};
              env := {| calls := []; cerr := []; user := tt |} |} in
  ∃ w1 w2 : World unit,
    SetMessageHandler_points (λ _, 200) "ping" None w = [w1; w2] ∧
    ¬ host_contexts_live w1.
Proof.
  intros w.
  destruct (unregistering_erases_before_telling_the_host (λ _, 200) "ping" 100
              {| message := ping; message_size := 4; response_handle := 42 |} w)
    as (w1 & w2 & Hpts & _ & _ & _ & Hdead & _).
  - split; [|reflexivity]. split; [reflexivity|].
    exists (replies_with pong 4). reflexivity.
  - by exists w1, w2.
Defined.
